(** * Report-generation service: prompts, external client, fallback, orchestration

    A shallow embedding of [research_engine.py] (classes [PromptEngine] and
    [ResearchService]) together with the library behaviour the code relies
    on: Python [str] operations, [textwrap.dedent], [json.loads] /
    [json.dumps], subscripting, and the exception classes named in the
    [except] clause of [_try_openai_json]. *)

From Stdlib Require Import String Ascii DecimalString List NArith ZArith Bool Lia.
Import ListNotations.

Set Implicit Arguments.
Set Warnings "-register-all".

(* ===================================================================== *)
(** ** Python strings *)
(* ===================================================================== *)

(** A Python [str] is a sequence of Unicode code points. *)
Definition pystr := list N.

(** ASCII literal of the source as a [pystr]. *)
Definition lit (s : string) : pystr :=
  map N_of_ascii (list_ascii_of_string s).

Module Str.

(** [a == b] *)
Fixpoint eqb (a b : pystr) : bool :=
  match a, b with
  | [], [] => true
  | x :: a', y :: b' => (x =? y)%N && eqb a' b'
  | _, _ => false
  end.

(** [str.isspace] on one code point: the table used by CPython for
    [str.strip()] and [str.isspace()]. *)
Definition isspace (c : N) : bool :=
  ((9 <=? c) && (c <=? 13) || (28 <=? c) && (c <=? 32)
   || (c =? 133) || (c =? 160) || (c =? 5760)
   || (8192 <=? c) && (c <=? 8202)
   || (c =? 8232) || (c =? 8233) || (c =? 8239) || (c =? 8287)
   || (c =? 12288))%N.

Fixpoint dropwhile (p : N -> bool) (s : pystr) : pystr :=
  match s with
  | [] => []
  | c :: r => if p c then dropwhile p r else s
  end.

Fixpoint takewhile (p : N -> bool) (s : pystr) : pystr :=
  match s with
  | [] => []
  | c :: r => if p c then c :: takewhile p r else []
  end.

Definition lstrip (s : pystr) : pystr := dropwhile isspace s.
Definition rstrip (s : pystr) : pystr := rev (dropwhile isspace (rev s)).

(** [s.strip()] *)
Definition strip (s : pystr) : pystr := rstrip (lstrip s).

(** [s.startswith(p)] *)
Fixpoint startswith (p s : pystr) : bool :=
  match p, s with
  | [], _ => true
  | a :: p', b :: s' => (a =? b)%N && startswith p' s'
  | _ :: _, [] => false
  end.

(** [sub in s] *)
Fixpoint contains (sub s : pystr) : bool :=
  startswith sub s ||
  match s with
  | [] => false
  | _ :: r => contains sub r
  end.

(** [s.split(sep)] for a one-character separator. *)
Fixpoint split (sep : N) (s : pystr) : list pystr :=
  match s with
  | [] => [[]]
  | c :: r =>
      if (c =? sep)%N then [] :: split sep r
      else match split sep r with
           | l :: ls => (c :: l) :: ls
           | [] => [[c]]
           end
  end.

(** [sep.join(parts)] *)
Fixpoint join (sep : pystr) (parts : list pystr) : pystr :=
  match parts with
  | [] => []
  | [p] => p
  | p :: ps => p ++ sep ++ join sep ps
  end.

End Str.

(** Substring as a proposition: [sub] occurs verbatim inside [s]. *)
Definition substring (sub s : pystr) : Prop :=
  exists pre post, s = pre ++ sub ++ post.

Definition nl : N := 10%N.

(* ===================================================================== *)
(** ** [textwrap.dedent] *)
(* ===================================================================== *)

(** The implementation with regular expressions (CPython up to 3.13).  Its
    patterns are compiled in MULTILINE mode, so each of them works on one
    line at a time; the text is therefore handled as the list of its lines
    between newline characters. *)
Module Textwrap.

(** Membership in the character class [[ \t]]. *)
Definition blank (c : N) : bool := ((c =? 32) || (c =? 9))%N.

(** [_whitespace_only_re.sub('', text)] (MULTILINE): a line made only
    of spaces and tabs becomes empty. *)
Definition normalize_line (l : pystr) : pystr :=
  if forallb blank l then [] else l.

(** [_leading_whitespace_re.findall(text)] (MULTILINE): at each line
    start, the run of spaces and tabs that is followed by a character
    other than space, tab and newline; a line with no such character
    gives no match. *)
Definition indents (lines : list pystr) : list pystr :=
  map (Str.takewhile blank)
      (filter (fun l => negb (forallb blank l)) lines).

(** [margin[:i]] at the first position where the two strings differ. *)
Fixpoint common_prefix (a b : pystr) : pystr :=
  match a, b with
  | x :: a', y :: b' => if (x =? y)%N then x :: common_prefix a' b' else []
  | _, _ => []
  end.

(** One round of the loop [for indent in indents]. *)
Definition update_margin (margin : option pystr) (indent : pystr)
  : option pystr :=
  match margin with
  | None => Some indent
  | Some m =>
      if Str.startswith m indent then Some m
      else if Str.startswith indent m then Some indent
      else Some (common_prefix m indent)
  end.

Definition find_margin (lines : list pystr) : option pystr :=
  fold_left update_margin (indents lines) None.

(** [re.sub(r'(?m)^' + margin, '', text)] on one line. *)
Definition remove_margin (m : pystr) (l : pystr) : pystr :=
  if Str.startswith m l then skipn (length m) l else l.

Definition dedent (text : pystr) : pystr :=
  let lines := map normalize_line (Str.split nl text) in
  match find_margin lines with
  | Some (c :: m) => Str.join [nl] (map (remove_margin (c :: m)) lines)
  | _ => Str.join [nl] lines
  end.

End Textwrap.

(* ===================================================================== *)
(** ** class PromptEngine *)
(* ===================================================================== *)

Module PromptEngine.

(** The text of a triple-quoted block, line by line; the lines are
    joined by the newline character. *)
Definition block (lines : list pystr) : pystr := Str.join [nl] lines.

Definition system_template : pystr :=
  block
    [ lit "";
      lit "            You are a scientific research assistant for students.";
      lit "            Produce rigorous yet easy-to-understand outputs.";
      lit "            Include evidence-oriented literature analysis, research gap detection,";
      lit "            a feasible student-level methodology, simulated quantitative results,";
      lit "            references, PPT outline, viva questions, and tools/datasets suggestions.";
      lit "            Return valid JSON only.";
      lit "            " ].

Definition build_system_prompt : pystr :=
  Str.strip (Textwrap.dedent system_template).

(** The f-string of [build_user_prompt] after interpolation. *)
Definition user_template (topic query : pystr) : pystr :=
  block
    [ lit "";
      lit "            Student topic: " ++ topic;
      lit "            Student research query: " ++ query;
      lit "";
      lit "            Return JSON with these keys exactly:";
      lit "            abstract, introduction, literature_review, research_gaps,";
      lit "            methodology, simulated_results, conclusion, references,";
      lit "            ppt_outline, viva_questions, datasets_and_tools.";
      lit "";
      lit "            Requirements:";
      lit "            - literature_review must include source + finding entries from: Google Scholar, IEEE Xplore, PubMed";
      lit "            - methodology must include design + steps";
      lit "            - simulated_results must include summary + table[] with metric, baseline, proposed";
      lit "            - references must be a list of citation strings";
      lit "            - datasets_and_tools must include datasets[] and tools[]";
      lit "            " ].

Definition build_user_prompt (topic query : pystr) : pystr :=
  Str.strip (Textwrap.dedent (user_template topic query)).

End PromptEngine.

(* ===================================================================== *)
(** ** Python values, exceptions, dictionaries *)
(* ===================================================================== *)

(** The values that [json.loads] produces and that the reports are made
    of.  A [float] is kept as the text of its literal; a [dict] is the
    list of its items in insertion order, with [str] keys. *)
Inductive value : Type :=
| VNone
| VBool (b : bool)
| VInt (z : Z)
| VFloat (repr : pystr)
| VStr (s : pystr)
| VList (l : list value)
| VDict (d : list (pystr * value)).

Definition dict := list (pystr * value).

(** Exception classes that the code names or that the calls it makes can
    raise. *)
Inductive exn : Type :=
| BaseOSError | URLError | HTTPError | TimeoutError
| HTTPException
| LookupError | KeyError | IndexError
| ValueError | JSONDecodeError | UnicodeDecodeError
| TypeError | AttributeError | RecursionError.

Definition exn_eqb (a b : exn) : bool :=
  match a, b with
  | BaseOSError, BaseOSError | URLError, URLError | HTTPError, HTTPError
  | TimeoutError, TimeoutError | HTTPException, HTTPException
  | LookupError, LookupError | KeyError, KeyError | IndexError, IndexError
  | ValueError, ValueError | JSONDecodeError, JSONDecodeError
  | UnicodeDecodeError, UnicodeDecodeError | TypeError, TypeError
  | AttributeError, AttributeError | RecursionError, RecursionError => true
  | _, _ => false
  end.

(** Direct base class, [None] for the classes that derive from
    [Exception] itself. *)
Definition base (e : exn) : option exn :=
  match e with
  | URLError => Some BaseOSError
  | HTTPError => Some URLError
  | TimeoutError => Some BaseOSError
  | KeyError => Some LookupError
  | IndexError => Some LookupError
  | JSONDecodeError => Some ValueError
  | UnicodeDecodeError => Some ValueError
  | _ => None
  end.

(** [issubclass(e, c)]; the hierarchy above has depth three. *)
Definition issubclass (e c : exn) : bool :=
  exn_eqb e c ||
  match base e with
  | Some b =>
      exn_eqb b c ||
      match base b with
      | Some b' => exn_eqb b' c
      | None => false
      end
  | None => false
  end.

(** [except (c1, ..., cn)] catches [e]. *)
Definition catches (classes : list exn) (e : exn) : bool :=
  existsb (issubclass e) classes.

Inductive result (A : Type) : Type :=
| Ok (a : A)
| Raise (e : exn).
Arguments Raise {A} e.

Module Dict.

(** [d.get(k)] as an option. *)
Fixpoint get (k : pystr) (d : dict) : option value :=
  match d with
  | [] => None
  | (k', v) :: r => if Str.eqb k k' then Some v else get k r
  end.

(** [k in d] *)
Definition mem (k : pystr) (d : dict) : bool :=
  match get k d with Some _ => true | None => false end.

(** [d[k] = v]: an existing key keeps its position, a new key goes last. *)
Fixpoint set (k : pystr) (v : value) (d : dict) : dict :=
  match d with
  | [] => [(k, v)]
  | (k', v') :: r =>
      if Str.eqb k k' then (k', v) :: r else (k', v') :: set k v r
  end.

(** [d.keys()] *)
Definition keys (d : dict) : list pystr := map fst d.

(** [bool(d)] *)
Definition truthy (d : dict) : bool :=
  match d with [] => false | _ :: _ => true end.

End Dict.

(** [required.issubset(set(ks))] *)
Definition issubset (required ks : list pystr) : bool :=
  forallb (fun k => existsb (Str.eqb k) ks) required.

(** A subscript is a [str] or an [int] in this code. *)
Inductive index : Type :=
| IStr (s : pystr)
| IInt (i : Z).

(** [seq[i]] for a list or a string, negative indices counted from the
    end. *)
Definition seq_item (A : Type) (l : list A) (i : Z) : option A :=
  let n := Z.of_nat (List.length l) in
  if (0 <=? i)%Z then nth_error l (Z.to_nat i)
  else if (0 <=? n + i)%Z then nth_error l (Z.to_nat (n + i))
  else None.

(** [v[i]] *)
Definition getitem (v : value) (i : index) : result value :=
  match v, i with
  | VDict d, IStr k =>
      match Dict.get k d with
      | Some x => Ok x
      | None => Raise KeyError
      end
  | VDict _, IInt _ => Raise KeyError
  | VList l, IInt n =>
      match seq_item l n with
      | Some x => Ok x
      | None => Raise IndexError
      end
  | VList _, IStr _ => Raise TypeError
  | VStr s, IInt n =>
      match seq_item s n with
      | Some c => Ok (VStr [c])
      | None => Raise IndexError
      end
  | VStr _, IStr _ => Raise TypeError
  | _, _ => Raise TypeError
  end.

(* ===================================================================== *)
(** ** The [json] module *)
(* ===================================================================== *)

(** The encoder and the decoder of the standard library, on [value].  A
    number with a fraction or an exponent is not converted to binary
    floating point: it keeps the text of its literal.  The limits of the
    interpreter (recursion depth, length of integer literals) are not
    modelled; [RecursionError] stands for a parse that runs out of its
    depth budget, which [loads] sets to the length of the text. *)
Module Json.

(** *** [json.dumps] with the default options ([ensure_ascii], separators
    [", "] and [": "]) *)

Definition hex_digit (n : N) : N :=
  (if n <? 10 then 48 + n else 87 + n)%N.

(** [format(c, '04x')] for [c < 65536] *)
Definition hex4 (c : N) : pystr :=
  [ hex_digit (c / 4096 mod 16); hex_digit (c / 256 mod 16);
    hex_digit (c / 16 mod 16); hex_digit (c mod 16) ]%N.

Definition escape_char (c : N) : pystr :=
  (if c =? 34 then lit "\" ++ [34]
   else if c =? 92 then lit "\\"
   else if c =? 10 then lit "\n"
   else if c =? 13 then lit "\r"
   else if c =? 9 then lit "\t"
   else if c =? 8 then lit "\b"
   else if c =? 12 then lit "\f"
   else if (32 <=? c) && (c <=? 126) then [c]
   else if c <? 65536 then lit "\u" ++ hex4 c
   else let n := c - 65536 in
        lit "\u" ++ hex4 (55296 + n / 1024 mod 1024)
        ++ lit "\u" ++ hex4 (56320 + n mod 1024))%N.

Definition quote (s : pystr) : pystr :=
  [34%N] ++ flat_map escape_char s ++ [34%N].

Definition int_repr (z : Z) : pystr :=
  lit (NilZero.string_of_int (Z.to_int z)).

Fixpoint dumps (v : value) : pystr :=
  match v with
  | VNone => lit "null"
  | VBool true => lit "true"
  | VBool false => lit "false"
  | VInt z => int_repr z
  | VFloat r => r
  | VStr s => quote s
  | VList l => lit "[" ++ Str.join (lit ", ") (map dumps l) ++ lit "]"
  | VDict d =>
      lit "{"
      ++ Str.join (lit ", ")
           (map (fun kv => quote (fst kv) ++ lit ": " ++ dumps (snd kv)) d)
      ++ lit "}"
  end.

(** *** [json.loads] on a [str] *)

Definition err {A : Type} : result A := Raise JSONDecodeError.

Definition ws (c : N) : bool :=
  ((c =? 32) || (c =? 9) || (c =? 10) || (c =? 13))%N.

Definition skip_ws (s : pystr) : pystr := Str.dropwhile ws s.

Definition is_digit (c : N) : bool := ((48 <=? c) && (c <=? 57))%N.

Definition hex_value (c : N) : option N :=
  (if is_digit c then Some (c - 48)
   else if (97 <=? c) && (c <=? 102) then Some (c - 87)
   else if (65 <=? c) && (c <=? 70) then Some (c - 55)
   else None)%N.

(** The four hexadecimal digits of a [\uXXXX] escape. *)
Definition read_hex4 (s : pystr) : option (N * pystr) :=
  match s with
  | a :: b :: c :: d :: r =>
      match hex_value a, hex_value b, hex_value c, hex_value d with
      | Some x, Some y, Some z, Some w =>
          Some ((((x * 16 + y) * 16 + z) * 16 + w)%N, r)
      | _, _, _, _ => None
      end
  | _ => None
  end.

Definition high_surrogate (c : N) : bool :=
  ((55296 <=? c) && (c <=? 56319))%N.
Definition low_surrogate (c : N) : bool :=
  ((56320 <=? c) && (c <=? 57343))%N.
Definition join_surrogates (hi lo : N) : N :=
  (65536 + (hi - 55296) * 1024 + (lo - 56320))%N.

Definition simple_escape (c : N) : option N :=
  (if c =? 34 then Some 34 else if c =? 92 then Some 92
   else if c =? 47 then Some 47 else if c =? 98 then Some 8
   else if c =? 102 then Some 12 else if c =? 110 then Some 10
   else if c =? 114 then Some 13 else if c =? 116 then Some 9
   else None)%N.

(** [scanstring] in strict mode, after the opening quote; [acc] holds
    the characters read so far, last first. *)
Fixpoint scanstring (fuel : nat) (s acc : pystr) : result (pystr * pystr) :=
  match fuel with
  | O => Raise RecursionError
  | S f =>
      match s with
      | [] => err
      | c :: r =>
          if (c =? 34)%N then Ok (rev acc, r)
          else if (c =? 92)%N then
            match r with
            | [] => err
            | e :: r1 =>
                if (e =? 117)%N then
                  match read_hex4 r1 with
                  | None => err
                  | Some (u, r2) =>
                      if high_surrogate u then
                        match r2 with
                        | 92%N :: 117%N :: r3 =>
                            match read_hex4 r3 with
                            | None => err
                            | Some (u2, r4) =>
                                if low_surrogate u2
                                then scanstring f r4 (join_surrogates u u2 :: acc)
                                else scanstring f r2 (u :: acc)
                            end
                        | _ => scanstring f r2 (u :: acc)
                        end
                      else scanstring f r2 (u :: acc)
                  end
                else
                  match simple_escape e with
                  | Some x => scanstring f r1 (x :: acc)
                  | None => err
                  end
            end
          else if (c <=? 31)%N then err
          else scanstring f r (c :: acc)
      end
  end.

Definition digits_value (ds : pystr) : Z :=
  fold_left (fun a d => (a * 10 + Z.of_N (d - 48))%Z) ds 0%Z.

(** The number grammar: an integer part, an optional fraction and an
    optional exponent.  An integer literal gives an [int], anything with
    a fraction or an exponent a [float]. *)
Definition match_number (s : pystr) : option (value * pystr) :=
  let '(sign, s1) :=
    match s with
    | 45%N :: r => ([45%N], r)
    | _ => ([], s)
    end in
  let int_part :=
    match s1 with
    | d :: r =>
        if (d =? 48)%N then Some ([d], r)
        else if is_digit d
             then Some (Str.takewhile is_digit s1, Str.dropwhile is_digit s1)
             else None
    | [] => None
    end in
  match int_part with
  | None => None
  | Some (ip, s2) =>
      let '(frac, s3) :=
        match s2 with
        | 46%N :: d :: _ =>
            if is_digit d
            then (46%N :: Str.takewhile is_digit (tl s2),
                  Str.dropwhile is_digit (tl s2))
            else ([], s2)
        | _ => ([], s2)
        end in
      let '(expo, s4) :=
        match s3 with
        | e :: r =>
            if ((e =? 101) || (e =? 69))%N then
              let '(sg, r1) :=
                match r with
                | x :: r' =>
                    if ((x =? 43) || (x =? 45))%N then ([x], r') else ([], r)
                | [] => ([], r)
                end in
              match Str.takewhile is_digit r1 with
              | [] => ([], s3)
              | ds => (e :: sg ++ ds, Str.dropwhile is_digit r1)
              end
            else ([], s3)
        | [] => ([], s3)
        end in
      match frac, expo with
      | [], [] =>
          Some (VInt (match sign with
                      | [] => digits_value ip
                      | _ => - digits_value ip
                      end)%Z, s4)
      | _, _ => Some (VFloat (sign ++ ip ++ frac ++ expo), s4)
      end
  end.

(** [s.startswith(p)] together with the rest of [s]. *)
Definition strip_prefix (p s : pystr) : option pystr :=
  if Str.startswith p s then Some (skipn (List.length p) s) else None.

(** The loop of [parse_array] after a first non-[]] character: one value,
    then [,] or []]. *)
Fixpoint parse_items (scan : pystr -> result (value * pystr))
  (fuel : nat) (s : pystr) (acc : list value) : result (value * pystr) :=
  match fuel with
  | O => Raise RecursionError
  | S f =>
      match scan s with
      | Raise e => Raise e
      | Ok (v, r) =>
          match skip_ws r with
          | 93%N :: r' => Ok (VList (rev (v :: acc)), r')
          | 44%N :: r' => parse_items scan f (skip_ws r') (v :: acc)
          | _ => err
          end
      end
  end.

(** The loop of [parse_object]: a quoted key, [:], a value, then [,] or
    [}].  A repeated key overwrites the earlier value. *)
Fixpoint parse_pairs (scan : pystr -> result (value * pystr))
  (fuel : nat) (s : pystr) (acc : dict) : result (value * pystr) :=
  match fuel with
  | O => Raise RecursionError
  | S f =>
      match s with
      | 34%N :: r =>
          match scanstring (S (List.length r)) r [] with
          | Raise e => Raise e
          | Ok (k, r1) =>
              match skip_ws r1 with
              | 58%N :: r2 =>
                  match scan (skip_ws r2) with
                  | Raise e => Raise e
                  | Ok (v, r3) =>
                      match skip_ws r3 with
                      | 125%N :: r4 => Ok (VDict (Dict.set k v acc), r4)
                      | 44%N :: r4 =>
                          parse_pairs scan f (skip_ws r4) (Dict.set k v acc)
                      | _ => err
                      end
                  end
              | _ => err
              end
          end
      | _ => err
      end
  end.

(** [scan_once]: one JSON value at the head of [s]; [depth] bounds the
    nesting of arrays and objects. *)
Fixpoint scan_once (depth : nat) (s : pystr) : result (value * pystr) :=
  match depth with
  | O => Raise RecursionError
  | S d =>
      match s with
      | [] => err
      | c :: r =>
          if (c =? 34)%N then
            match scanstring (S (List.length r)) r [] with
            | Ok (x, r') => Ok (VStr x, r')
            | Raise e => Raise e
            end
          else if (c =? 123)%N then
            match skip_ws r with
            | 125%N :: r' => Ok (VDict [], r')
            | r' => parse_pairs (scan_once d) (S (List.length r')) r' []
            end
          else if (c =? 91)%N then
            match skip_ws r with
            | 93%N :: r' => Ok (VList [], r')
            | r' => parse_items (scan_once d) (S (List.length r')) r' []
            end
          else
            match strip_prefix (lit "null") s with
            | Some r' => Ok (VNone, r')
            | None =>
            match strip_prefix (lit "true") s with
            | Some r' => Ok (VBool true, r')
            | None =>
            match strip_prefix (lit "false") s with
            | Some r' => Ok (VBool false, r')
            | None =>
            match strip_prefix (lit "NaN") s with
            | Some r' => Ok (VFloat (lit "NaN"), r')
            | None =>
            match strip_prefix (lit "Infinity") s with
            | Some r' => Ok (VFloat (lit "Infinity"), r')
            | None =>
            match strip_prefix (lit "-Infinity") s with
            | Some r' => Ok (VFloat (lit "-Infinity"), r')
            | None =>
            match match_number s with
            | Some (v, r') => Ok (v, r')
            | None => err
            end end end end end end end
      end
  end.

(** [json.loads(s)] for a [str]: optional white space, one value,
    optional white space, end of input. *)
Definition loads (s : pystr) : result value :=
  match scan_once (S (List.length s)) (skip_ws s) with
  | Raise e => Raise e
  | Ok (v, r) =>
      match skip_ws r with
      | [] => Ok v
      | _ :: _ => err
      end
  end.

(** [json.loads(x)] for any value [x]: only a [str] is accepted here
    ([bytes] do not come out of a JSON document). *)
Definition loads_value (x : value) : result value :=
  match x with
  | VStr s => loads s
  | _ => Raise TypeError
  end.

End Json.

(* ===================================================================== *)
(** ** The process environment and the network *)
(* ===================================================================== *)

(** [urllib.request.Request(url, data=..., headers=..., method=...)] *)
Record Request : Type := {
  url : pystr;
  data : pystr;
  headers : list (pystr * pystr);
  method : pystr
}.

(** What the code cannot decide by itself: the environment variables, and
    what [urlopen(req, timeout=t)] followed by
    [response.read().decode("utf-8")] gives for a request, either the
    decoded body or the exception raised on the way. *)
Record World : Type := {
  environ : pystr -> option pystr;
  urlopen_read : Request -> Z -> result pystr
}.

(** [os.getenv(name, default)] *)
Definition getenv (W : World) (name default : pystr) : pystr :=
  match environ W name with
  | Some v => v
  | None => default
  end.

(** The outbound calls performed so far, oldest first. *)
Definition trace := list (Request * Z).

(** A computation reads and extends the trace and either returns or
    raises; the trace survives an exception. *)
Definition M (A : Type) : Type := trace -> result A * trace.

Definition ret {A : Type} (a : A) : M A := fun tr => (Ok a, tr).

Definition bind {A B : Type} (c : M A) (k : A -> M B) : M B :=
  fun tr =>
    match c tr with
    | (Ok a, tr') => k a tr'
    | (Raise e, tr') => (Raise e, tr')
    end.

(** A pure call that may raise. *)
Definition lift {A : Type} (r : result A) : M A := fun tr => (r, tr).

Notation "x <- c ;; k" := (bind c (fun x => k))
  (at level 61, c at next level, right associativity).

(** [try: body  except classes: handler] *)
Definition try_except {A : Type} (body : M A) (classes : list exn)
  (handler : M A) : M A :=
  fun tr =>
    match body tr with
    | (Raise e, tr') =>
        if catches classes e then handler tr' else (Raise e, tr')
    | done => done
    end.

(** One network call: recorded in the trace, answered by the world. *)
Definition urlopen (W : World) (req : Request) (timeout : Z) : M pystr :=
  fun tr => (urlopen_read W req timeout, tr ++ [(req, timeout)]).

(* ===================================================================== *)
(** ** class ResearchService *)
(* ===================================================================== *)

Module ResearchService.

Definition REQUIRED_KEYS : list pystr :=
  [ lit "abstract";
    lit "introduction";
    lit "literature_review";
    lit "research_gaps";
    lit "methodology";
    lit "simulated_results";
    lit "conclusion";
    lit "references";
    lit "ppt_outline";
    lit "viva_questions";
    lit "datasets_and_tools" ].

Definition _simulate_sources (topic : pystr) : list value :=
  [ VDict
      [ (lit "source", VStr (lit "Google Scholar"));
        (lit "finding", VStr (lit "Recent studies on " ++ topic ++ lit " show measurable gains from hybrid and retrieval-augmented AI pipelines.")) ];
    VDict
      [ (lit "source", VStr (lit "IEEE Xplore"));
        (lit "finding", VStr (lit "Engineering papers report trade-offs between model accuracy, latency, and deployment cost in " ++ topic ++ lit " systems.")) ];
    VDict
      [ (lit "source", VStr (lit "PubMed"));
        (lit "finding", VStr (lit "Human-impact studies emphasize ethics, safety, and reproducibility for " ++ topic ++ lit "-related interventions.")) ] ].

Definition _fallback_report (topic query : pystr) : dict :=
  [ (lit "abstract", VStr (lit "This project investigates " ++ topic ++ lit " with a scientist-style workflow. It addresses '" ++ query ++ lit "' through literature synthesis, gap detection, and a practical student-level methodology."));
    (lit "introduction", VStr (topic ++ lit " is an important research area in both academia and industry. This report explains the current state of knowledge and where a student can contribute new findings."));
    (lit "literature_review", VList (_simulate_sources topic));
    (lit "research_gaps", VList
      [ VStr (lit "Limited benchmarking in low-resource student lab environments.");
        VStr (lit "Inconsistent reproducibility due to missing open protocols and code-sharing.");
        VStr (lit "Few studies jointly evaluate technical performance and real-world usability.") ]);
    (lit "methodology", VDict
      [ (lit "design", VStr (lit "Mixed-method design: quantitative model benchmarking plus qualitative expert/student feedback."));
        (lit "steps", VList
          [ VStr (lit "Collect and preprocess open datasets relevant to the topic.");
            VStr (lit "Implement baseline methods and at least one improved approach.");
            VStr (lit "Measure performance with Accuracy, F1, precision/recall, and latency.");
            VStr (lit "Analyze error patterns and compare findings with published work.");
            VStr (lit "Summarize limitations and propose future experiments.") ]) ]);
    (lit "simulated_results", VDict
      [ (lit "summary", VStr (lit "The proposed method is expected to improve baseline quality metrics while maintaining practical inference speed."));
        (lit "table", VList
          [ VDict
              [ (lit "metric", VStr (lit "Accuracy"));
                (lit "baseline", VStr (lit "78%"));
                (lit "proposed", VStr (lit "86%")) ];
            VDict
              [ (lit "metric", VStr (lit "F1 Score"));
                (lit "baseline", VStr (lit "0.74"));
                (lit "proposed", VStr (lit "0.83")) ];
            VDict
              [ (lit "metric", VStr (lit "Latency"));
                (lit "baseline", VStr (lit "210ms"));
                (lit "proposed", VStr (lit "185ms")) ] ]) ]);
    (lit "conclusion", VStr (lit "The study offers a feasible roadmap for student research on " ++ topic ++ lit ". It identifies concrete research gaps and a publishable experiment plan."));
    (lit "references", VList
      [ VStr (lit "A. Kumar et al. (2023). Advances in " ++ topic ++ lit ". Journal of Student Research, 12(4), 1-20.");
        VStr (lit "L. Chen & P. Smith (2022). Benchmarking " ++ topic ++ lit " systems under practical constraints. IEEE Learning Systems.");
        VStr (lit "R. Diaz et al. (2024). Reproducibility and ethics in " ++ topic ++ lit ". International Review of Applied AI.") ]);
    (lit "ppt_outline", VList
      [ VStr (lit "Problem statement and motivation");
        VStr (lit "Literature landscape and gap analysis");
        VStr (lit "Research objectives and hypotheses");
        VStr (lit "Methodology and experimental setup");
        VStr (lit "Simulated/expected results");
        VStr (lit "Conclusion, limitations, and future work") ]);
    (lit "viva_questions", VList
      [ VStr (lit "Why did you choose this topic and what problem does it solve?");
        VStr (lit "How is your methodology better or different than prior work?");
        VStr (lit "What are the strongest limitations of your current design?");
        VStr (lit "How would you validate generalization on larger or noisier datasets?");
        VStr (lit "What ethical or bias issues could affect your findings?") ]);
    (lit "datasets_and_tools", VDict
      [ (lit "datasets", VList
          [ VStr (lit "Kaggle domain datasets");
            VStr (lit "UCI Machine Learning Repository");
            VStr (lit "Government open-data portals") ]);
        (lit "tools", VList
          [ VStr (lit "Python (Pandas, scikit-learn, PyTorch)");
            VStr (lit "Jupyter Notebook");
            VStr (lit "Zotero or Mendeley");
            VStr (lit "Tableau or Power BI") ]) ]) ].

(** The body sent to the endpoint. *)
Definition payload (model topic query : pystr) : value :=
  VDict
    [ (lit "model", VStr model);
      (lit "messages", VList
        [ VDict [ (lit "role", VStr (lit "system"));
                  (lit "content", VStr PromptEngine.build_system_prompt) ];
          VDict [ (lit "role", VStr (lit "user"));
                  (lit "content",
                    VStr (PromptEngine.build_user_prompt topic query)) ] ]);
      (lit "temperature", VFloat (lit "0.2"));
      (lit "response_format", VDict [ (lit "type", VStr (lit "json_object")) ]) ].

(** [json.dumps(payload).encode("utf-8")]: the encoder emits ASCII only,
    whose UTF-8 encoding is the same sequence. *)
Definition build_request (api_key model topic query : pystr) : Request :=
  {| url := lit "https://api.openai.com/v1/chat/completions";
     data := Json.dumps (payload model topic query);
     headers := [ (lit "Authorization", lit "Bearer " ++ api_key);
                  (lit "Content-Type", lit "application/json") ];
     method := lit "POST" |}.

(** The classes of the [except] clause, as written. *)
Definition EXCEPT : list exn :=
  [ URLError; HTTPError; KeyError; JSONDecodeError; TimeoutError ].

(** [parsed.keys()] exists for a [dict] only. *)
Definition as_dict (v : value) : result dict :=
  match v with
  | VDict d => Ok d
  | _ => Raise AttributeError
  end.

(** The body of the [try] block; [None] stands for leaving the block
    without [return], which reaches the final [return None]. *)
Definition try_body (W : World) (req : Request) : M (option dict) :=
  body <- urlopen W req 45 ;;
  raw <- lift (Json.loads body) ;;
  choices <- lift (getitem raw (IStr (lit "choices"))) ;;
  first <- lift (getitem choices (IInt 0)) ;;
  message <- lift (getitem first (IStr (lit "message"))) ;;
  content <- lift (getitem message (IStr (lit "content"))) ;;
  parsed <- lift (Json.loads_value content) ;;
  d <- lift (as_dict parsed) ;;
  if issubset REQUIRED_KEYS (Dict.keys d) then ret (Some d) else ret None.

Definition _try_openai_json (W : World) (topic query : pystr)
  : M (option dict) :=
  let api_key := Str.strip (getenv W (lit "OPENAI_API_KEY") (lit "")) in
  match api_key with
  | [] => ret None
  | _ :: _ =>
      let model := getenv W (lit "OPENAI_MODEL") (lit "gpt-4o-mini") in
      let req := build_request api_key model topic query in
      try_except (try_body W req) EXCEPT (ret None)
  end.

Definition prompt_debug (topic query : pystr) : value :=
  VDict
    [ (lit "system_prompt", VStr PromptEngine.build_system_prompt);
      (lit "user_prompt", VStr (PromptEngine.build_user_prompt topic query));
      (lit "source", VStr (lit "fallback")) ].

Definition tagged_fallback (topic query : pystr) : dict :=
  Dict.set (lit "prompt_debug") (prompt_debug topic query)
    (_fallback_report topic query).

Definition generate_report (W : World) (topic query : pystr) : M dict :=
  external <- _try_openai_json W topic query ;;
  match external with
  | Some d =>
      if Dict.truthy d then ret d else ret (tagged_fallback topic query)
  | None => ret (tagged_fallback topic query)
  end.

End ResearchService.

(* ===================================================================== *)
(** ** The shapes of section 3 of the specification *)
(* ===================================================================== *)

(** The value shapes that the data model asks of a report, as a decidable
    check on a dictionary.  This is the property the reports are measured
    against, not code of the service. *)
Module Shape.

Definition str (v : value) : bool :=
  match v with VStr _ => true | _ => false end.

Definition nonempty_str (v : value) : bool :=
  match v with VStr (_ :: _) => true | _ => false end.

(** A non-empty sequence whose elements all satisfy [p]. *)
Definition nonempty_seq (p : value -> bool) (v : value) : bool :=
  match v with
  | VList (x :: l) => forallb p (x :: l)
  | _ => false
  end.

(** [d] has key [k] and its value satisfies [p]. *)
Definition field (p : value -> bool) (k : pystr) (d : dict) : bool :=
  match Dict.get k d with
  | Some v => p v
  | None => false
  end.

(** An object whose listed fields satisfy their checks. *)
Definition object (checks : list (pystr * (value -> bool))) (v : value)
  : bool :=
  match v with
  | VDict d => forallb (fun c => field (snd c) (fst c) d) checks
  | _ => false
  end.

Definition review_entry : value -> bool :=
  object [ (lit "source", str); (lit "finding", str) ].

Definition table_row : value -> bool :=
  object [ (lit "metric", str); (lit "baseline", str); (lit "proposed", str) ].

Definition report (r : dict) : bool :=
  field nonempty_str (lit "abstract") r
  && field nonempty_str (lit "introduction") r
  && field (nonempty_seq review_entry) (lit "literature_review") r
  && field (nonempty_seq str) (lit "research_gaps") r
  && field (object [ (lit "design", str);
                     (lit "steps", nonempty_seq str) ])
       (lit "methodology") r
  && field (object [ (lit "summary", str);
                     (lit "table", nonempty_seq table_row) ])
       (lit "simulated_results") r
  && field nonempty_str (lit "conclusion") r
  && field (nonempty_seq str) (lit "references") r
  && field (nonempty_seq str) (lit "ppt_outline") r
  && field (nonempty_seq str) (lit "viva_questions") r
  && field (object [ (lit "datasets", nonempty_seq str);
                     (lit "tools", nonempty_seq str) ])
       (lit "datasets_and_tools") r.

End Shape.

(** Every required key is a key of [r]. *)
Definition has_required_keys (r : dict) : Prop :=
  forall k, In k ResearchService.REQUIRED_KEYS -> In k (Dict.keys r).

(* ===================================================================== *)
(** ** Concrete worlds *)
(* ===================================================================== *)

Module Scenario.

(** No variable is set and the network is unreachable. *)
Definition unconfigured : World :=
  {| environ := fun _ => None;
     urlopen_read := fun _ _ => Raise URLError |}.

(** Only [OPENAI_API_KEY] is set, to [key]; every call is answered with
    [body]. *)
Definition replying (key body : pystr) : World :=
  {| environ := fun name =>
       if Str.eqb name (lit "OPENAI_API_KEY") then Some key else None;
     urlopen_read := fun _ _ => Ok body |}.

(** A chat-completion document whose first choice carries [content],
    and its text as the endpoint sends it. *)
Definition message (content : value) : value :=
  VDict [ (lit "role", VStr (lit "assistant")); (lit "content", content) ].

Definition choice (content : value) : value :=
  VDict [ (lit "message", message content) ].

Definition completion_doc (content : value) : value :=
  VDict [ (lit "choices", VList [ choice content ]) ].

Definition completion (content : value) : pystr :=
  Json.dumps (completion_doc content).

(** The text of a report as the provider embeds it in [content]. *)
Definition embedded (r : dict) : value := VStr (Json.dumps (VDict r)).

(** A body with an empty list of choices. *)
Definition no_choices : pystr :=
  Json.dumps (VDict [ (lit "choices", VList []) ]).

(** An object with the eleven required keys, each mapped to [null]. *)
Definition hollow_report : dict :=
  map (fun k => (k, VNone)) ResearchService.REQUIRED_KEYS.

(** A complete report of the provider that also carries its own
    [prompt_debug] entry. *)
Definition self_tagged_report : dict :=
  ResearchService._fallback_report (lit "AI") (lit "q")
  ++ [ (lit "prompt_debug", VStr (lit "provider")) ].

(** A two-line query whose second line is indented. *)
Definition indented_query : pystr :=
  lit "Goals:" ++ [nl] ++ lit "  - first".

End Scenario.

(* ===================================================================== *)
(** ** The user prompt for one-line inputs *)
(* ===================================================================== *)

(** The fixed lines of the user prompt that follow the query, without
    their indentation. *)
Definition prompt_rest_lines : list pystr :=
  [ lit "";
    lit "Return JSON with these keys exactly:";
    lit "abstract, introduction, literature_review, research_gaps,";
    lit "methodology, simulated_results, conclusion, references,";
    lit "ppt_outline, viva_questions, datasets_and_tools.";
    lit "";
    lit "Requirements:";
    lit "- literature_review must include source + finding entries from: Google Scholar, IEEE Xplore, PubMed";
    lit "- methodology must include design + steps";
    lit "- simulated_results must include summary + table[] with metric, baseline, proposed";
    lit "- references must be a list of citation strings";
    lit "- datasets_and_tools must include datasets[] and tools[]" ].

(** The same lines as they stand in the source, behind twelve spaces, and
    the closing line of the block. *)
Definition indent_line (l : pystr) : pystr :=
  match l with
  | [] => []
  | _ :: _ => lit "            " ++ l
  end.

Definition template_rest_lines : list pystr :=
  map indent_line prompt_rest_lines ++ [ lit "            " ].

(** What [build_user_prompt] is expected to give when neither the topic nor
    the query contains a line break: the template without its indentation,
    with both inserted as they are. *)
Definition single_line_prompt (topic query : pystr) : pystr :=
  lit "Student topic: " ++ topic ++ [nl]
  ++ lit "Student research query: " ++ query ++ [nl]
  ++ PromptEngine.block prompt_rest_lines.

(* ===================================================================== *)
(** ** Regular expressions *)
(* ===================================================================== *)

(** The fragment of [re] in which [EMAIL_REGEX] is written: anchors, one
    character of a class, and one or more characters of a class. *)
Module Re.

Inductive atom : Type :=
| Caret
| Dollar
| Class (p : N -> bool)
| ClassPlus (p : N -> bool).

Definition pattern := list atom.

(** [$] without MULTILINE: the end of the string, or the place before a
    newline that ends the string. *)
Definition at_end (s : pystr) : bool :=
  match s with
  | [] => true
  | [c] => (c =? nl)%N
  | _ => false
  end.

(** One or more characters of [p], then [k] on what is left; every split
    is tried. *)
Fixpoint plus (p : N -> bool) (k : pystr -> bool) (s : pystr) : bool :=
  match s with
  | c :: r => p c && (plus p k r || k r)
  | [] => false
  end.

(** Whether the pattern matches at the head of [s]; [start] tells that
    nothing has been consumed yet. *)
Fixpoint run (pat : pattern) (start : bool) (s : pystr) : bool :=
  match pat with
  | [] => true
  | Caret :: pat' => start && run pat' start s
  | Dollar :: pat' => at_end s && run pat' start s
  | Class p :: pat' =>
      match s with
      | c :: r => p c && run pat' false r
      | [] => false
      end
  | ClassPlus p :: pat' => plus p (run pat' false) s
  end.

(** [pattern.match(s)] is not [None]. *)
Definition matches (pat : pattern) (s : pystr) : bool := run pat true s.

End Re.

(* ===================================================================== *)
(** ** The web layer: request validation *)
(* ===================================================================== *)

(** Sequencing of calls that may raise. *)
Definition and_then {A B : Type} (r : result A) (k : A -> result B)
  : result B :=
  match r with
  | Ok a => k a
  | Raise e => Raise e
  end.

Notation "x <~ r ;; k" := (and_then r (fun x => k))
  (at level 61, r at next level, right associativity).

Module App.

(** [[^@\s]]: any character but [@] and white space. *)
Definition email_char (c : N) : bool :=
  negb (c =? 64)%N && negb (Str.isspace c).

(** [^[^@\s]+@[^@\s]+\.[^@\s]+$] *)
Definition EMAIL_REGEX : Re.pattern :=
  [ Re.Caret;
    Re.ClassPlus email_char;
    Re.Class (N.eqb 64);
    Re.ClassPlus email_char;
    Re.Class (N.eqb 46);
    Re.ClassPlus email_char;
    Re.Dollar ].

(** [payload.get(key, default)]: a method of [dict] only. *)
Definition get (payload : value) (key : pystr) (default : value)
  : result value :=
  match payload with
  | VDict d =>
      Ok (match Dict.get key d with
          | Some v => v
          | None => default
          end)
  | _ => Raise AttributeError
  end.

(** [x.strip()]: a method of [str] only. *)
Definition strip (x : value) : result pystr :=
  match x with
  | VStr s => Ok (Str.strip s)
  | _ => Raise AttributeError
  end.

(** [len(x)] *)
Definition len (x : value) : result nat :=
  match x with
  | VStr s => Ok (List.length s)
  | VList l => Ok (List.length l)
  | VDict d => Ok (List.length d)
  | _ => Raise TypeError
  end.

(** [payload.get(key, "").strip()] *)
Definition stripped (payload : value) (key : pystr) : result pystr :=
  v <~ get payload key (VStr []) ;;
  strip v.

Definition required : list pystr :=
  [ lit "student_name"; lit "student_email"; lit "topic"; lit "query" ].

(** The loop over [required]: the first key whose stripped value is
    empty, if there is one. *)
Fixpoint first_blank (payload : value) (keys : list pystr)
  : result (option pystr) :=
  match keys with
  | [] => Ok None
  | key :: rest =>
      s <~ stripped payload key ;;
      match s with
      | [] => Ok (Some key)
      | _ :: _ => first_blank payload rest
      end
  end.

Section Validation.

(** [str.lower], which follows the case mappings of the Unicode character
    database. *)
Variable lower : pystr -> pystr.

Definition _validate_research_payload (payload : value)
  : result (bool * pystr) :=
  blank <~ first_blank payload required ;;
  match blank with
  | Some key => Ok (false, key ++ lit " is required")
  | None =>
      email <~ stripped payload (lit "student_email") ;;
      if negb (Re.matches EMAIL_REGEX (lower email))
      then Ok (false, lit "student_email format is invalid")
      else
        topic <~ get payload (lit "topic") (VStr []) ;;
        n <~ len topic ;;
        if 300 <? n
        then Ok (false, lit "topic must be <= 300 characters")
        else
          query <~ get payload (lit "query") (VStr []) ;;
          m <~ len query ;;
          if 5000 <? m
          then Ok (false, lit "query must be <= 5000 characters")
          else Ok (true, lit "")
  end.

(** The fields that [run_research] reads from a payload once it is
    valid. *)
Record fields : Type := {
  student_name : pystr;
  student_email : pystr;
  institution : pystr;
  topic : pystr;
  query : pystr
}.

Definition read_fields (payload : value) : result fields :=
  name <~ stripped payload (lit "student_name") ;;
  email <~ stripped payload (lit "student_email") ;;
  inst <~ stripped payload (lit "institution") ;;
  t <~ stripped payload (lit "topic") ;;
  q <~ stripped payload (lit "query") ;;
  Ok {| student_name := name;
        student_email := lower email;
        institution := firstn 200 inst;
        topic := t;
        query := q |}.

End Validation.

End App.

(** The field [key] of the payload is a string with something left after
    [strip]. *)
Definition filled (payload : value) (key : pystr) : Prop :=
  exists c s, App.stripped payload key = Ok (c :: s).

(* ===================================================================== *)
(** ** Values that survive storage as JSON text *)
(* ===================================================================== *)

(** [run_research] stores a report as [json.dumps(report)] and
    [get_history_detail] returns [json.loads] of the stored text.  The
    values below are the ones for which this is the identity in the model:
    trees of objects, lists, strings, booleans and [null], with no key
    repeated in an object and no surrogate code point in a string. *)
Module Store.

(** A Unicode scalar value: a code point that is not a surrogate. *)
Definition scalar (c : N) : bool :=
  ((c <? 55296) || ((57343 <? c) && (c <? 1114112)))%N.

Fixpoint distinct (ks : list pystr) : bool :=
  match ks with
  | [] => true
  | k :: r => negb (existsb (Str.eqb k) r) && distinct r
  end.

Fixpoint storable (v : value) : bool :=
  match v with
  | VNone | VBool _ => true
  | VInt _ | VFloat _ => false
  | VStr s => forallb scalar s
  | VList l => forallb storable l
  | VDict d =>
      distinct (map fst d)
      && forallb (fun kv => forallb scalar (fst kv) && storable (snd kv)) d
  end.

Fixpoint height (v : value) : nat :=
  match v with
  | VList l => S (list_max (map height l))
  | VDict d => S (list_max (map (fun kv => height (snd kv)) d))
  | _ => 1
  end.

Section Induction.

Variable P : value -> Prop.
Hypothesis P_none : P VNone.
Hypothesis P_bool : forall b, P (VBool b).
Hypothesis P_int : forall z, P (VInt z).
Hypothesis P_float : forall r, P (VFloat r).
Hypothesis P_str : forall s, P (VStr s).
Hypothesis P_list : forall l, Forall P l -> P (VList l).
Hypothesis P_dict : forall d, Forall (fun kv => P (snd kv)) d -> P (VDict d).

Fixpoint value_induction (v : value) : P v :=
  match v with
  | VNone => P_none
  | VBool b => P_bool b
  | VInt z => P_int z
  | VFloat r => P_float r
  | VStr s => P_str s
  | VList l =>
      P_list
        ((fix all (l : list value) : Forall P l :=
            match l with
            | [] => Forall_nil P
            | x :: r => Forall_cons x (value_induction x) (all r)
            end) l)
  | VDict d =>
      P_dict
        ((fix all (d : list (pystr * value))
            : Forall (fun kv => P (snd kv)) d :=
            match d with
            | [] => Forall_nil _
            | kv :: r =>
                Forall_cons kv (value_induction (snd kv)) (all r)
            end) d)
  end.

End Induction.

End Store.

(** The first character of the text of such a value. *)
Definition opener (c : N) : Prop :=
  c = 110%N \/ c = 116%N \/ c = 102%N \/ c = 34%N \/ c = 91%N \/ c = 123%N.

(** The text of one member of an object, as [dumps] writes it. *)
Definition member (kv : pystr * value) : pystr :=
  Json.quote (fst kv) ++ lit ": " ++ Json.dumps (snd kv).

(** A character of the ASCII range. *)
Definition is_ascii (c : N) : bool := (c <? 128)%N.

(* ===================================================================== *)
(** ** The limits of the interpreter *)
(* ===================================================================== *)

(** [Json.loads] and [Json.dumps] are the decoder and the encoder as the
    library defines them, without the two limits under which CPython runs
    them.  The conversion of an integer literal of more than
    [sys.get_int_max_str_digits()] decimal digits raises [ValueError].
    The decoder and the encoder recurse once for each level of nesting,
    and raise [RecursionError] when the recursion limit of the
    interpreter is used up; that limit is shared with the frames of the
    call stack, so the depth at which it strikes depends on the caller.
    What is stated about arbitrary texts and values is stated for the
    texts and values below, which stay clear of both limits. *)
Module Limits.

(** [sys.get_int_max_str_digits()] as the interpreter starts. *)
Definition int_max_str_digits : nat := 4300.

(** A depth of nesting that a call from a request handler has at hand:
    [sys.getrecursionlimit()] is 1000 as the interpreter starts. *)
Definition depth : nat := 100.

(** The length of the longest run of decimal digits of [s], where [run]
    digits come just before [s]. *)
Fixpoint digit_run (run : nat) (s : pystr) : nat :=
  match s with
  | [] => run
  | c :: r =>
      if Json.is_digit c then digit_run (S run) r
      else Nat.max run (digit_run 0 r)
  end.

(** The characters that open an array or an object. *)
Definition bracket (c : N) : bool := ((c =? 91) || (c =? 123))%N.

(** The number of opening brackets of [s], which bounds the depth that
    the decoder reaches on [s]. *)
Definition brackets (s : pystr) : nat := List.length (filter bracket s).

(** A text on which the decoder meets neither limit: no integer literal
    is longer than [int_max_str_digits], no nesting deeper than
    [depth]. *)
Definition text (s : pystr) : bool :=
  (brackets s <=? depth)%nat
  && (digit_run 0 s <=? int_max_str_digits)%nat.

End Limits.

(* ===================================================================== *)
(** ** More concrete worlds and payloads *)
(* ===================================================================== *)

Module Cases.

(** [OPENAI_API_KEY] is set to [key] and every call raises [e]. *)
Definition failing (key : pystr) (e : exn) : World :=
  {| environ := fun name =>
       if Str.eqb name (lit "OPENAI_API_KEY") then Some key else None;
     urlopen_read := fun _ _ => Raise e |}.

(** The request that the client sends for the key ["sk-test"] and the
    default model. *)
Definition request (topic query : pystr) : Request :=
  ResearchService.build_request (lit "sk-test") (lit "gpt-4o-mini")
    topic query.

(** ASCII lower-casing, the restriction of [str.lower] to ASCII text. *)
Definition ascii_lower (s : pystr) : pystr :=
  map (fun c => if ((65 <=? c) && (c <=? 90))%N then (c + 32)%N else c) s.

(** A payload as the form of the page sends it. *)
Definition good_payload : value :=
  VDict
    [ (lit "student_name", VStr (lit " Ada Lovelace "));
      (lit "student_email", VStr (lit "Ada@Example.org "));
      (lit "institution", VStr (lit "Analytical Engines"));
      (lit "topic", VStr (lit " Edge AI"));
      (lit "query", VStr (lit "How to optimize edge inference? ")) ].

(** The same payload with a number in place of the institution. *)
Definition numeric_institution : value :=
  VDict
    [ (lit "student_name", VStr (lit "Ada"));
      (lit "student_email", VStr (lit "ada@example.org"));
      (lit "institution", VInt 7);
      (lit "topic", VStr (lit "Edge AI"));
      (lit "query", VStr (lit "How?")) ].

(** A payload whose topic is [null]. *)
Definition null_topic : value :=
  VDict
    [ (lit "student_name", VStr (lit "Ada"));
      (lit "student_email", VStr (lit "ada@example.org"));
      (lit "topic", VNone);
      (lit "query", VStr (lit "How?")) ].

End Cases.

(* ===================================================================== *)
(** ** Facts about strings and dictionaries *)
(* ===================================================================== *)

Section StringFacts.

Lemma eqb_refl (a : pystr) : Str.eqb a a = true.
Proof.
  induction a as [|x a IH]; simpl; [reflexivity|].
  now rewrite N.eqb_refl, IH.
Qed.

Lemma eqb_eq (a b : pystr) : Str.eqb a b = true <-> a = b.
Proof.
  split; [|intros ->; apply eqb_refl].
  revert b; induction a as [|x a IH]; intros [|y b]; simpl;
    try discriminate; [reflexivity|].
  intros H. apply andb_true_iff in H as [Hx Hr].
  apply N.eqb_eq in Hx. now rewrite Hx, (IH b Hr).
Qed.

Lemma startswith_spec (p s : pystr) :
  Str.startswith p s = true <-> exists r, s = p ++ r.
Proof.
  revert s; induction p as [|a p IH]; intros s; simpl.
  - split; [intros _; now exists s | reflexivity].
  - destruct s as [|b s].
    + split; [discriminate | intros [r Hr]; discriminate].
    + rewrite andb_true_iff, N.eqb_eq, IH. split.
      * intros [-> [r ->]]. now exists r.
      * intros [r Hr]. injection Hr as -> ->. split; [reflexivity | now exists r].
Qed.

Lemma contains_spec (sub s : pystr) :
  Str.contains sub s = true <-> substring sub s.
Proof.
  unfold substring. induction s as [|c s IH].
  - simpl. rewrite orb_false_r, startswith_spec. split.
    + intros [r Hr]. now exists [], r.
    + intros [pre [post H]]. destruct pre; [now exists post|discriminate].
  - simpl. rewrite orb_true_iff, startswith_spec, IH. split.
    + intros [[r Hr] | [pre [post H]]].
      * now exists [], r.
      * exists (c :: pre), post. simpl. now rewrite H.
    + intros [[|x pre] [post H]].
      * left. now exists post.
      * right. injection H as _ H. now exists pre, post.
Qed.

Lemma substring_mid (pre sub post : pystr) : substring sub (pre ++ sub ++ post).
Proof. now exists pre, post. Qed.

Lemma dropwhile_all (p : N -> bool) (s : pystr) :
  forallb p s = true -> Str.dropwhile p s = [].
Proof.
  induction s as [|c s IH]; simpl; [reflexivity|].
  destruct (p c); simpl; [exact IH | discriminate].
Qed.

(** Stripping a string made of white space only leaves nothing. *)
Lemma strip_blank (s : pystr) :
  forallb Str.isspace s = true -> Str.strip s = [].
Proof.
  intros H. unfold Str.strip, Str.lstrip, Str.rstrip.
  now rewrite (dropwhile_all _ _ H).
Qed.

Lemma existsb_eqb_In (k : pystr) (ks : list pystr) :
  existsb (Str.eqb k) ks = true <-> In k ks.
Proof.
  rewrite existsb_exists. split.
  - intros [x [Hx Hk]]. apply eqb_eq in Hk. now subst.
  - intros H. exists k. split; [exact H | apply eqb_refl].
Qed.

Lemma issubset_spec (required ks : list pystr) :
  issubset required ks = true <-> (forall k, In k required -> In k ks).
Proof.
  unfold issubset. rewrite forallb_forall.
  split; intros H k Hk; apply existsb_eqb_In; auto.
Qed.

Lemma get_set_same (k : pystr) (v : value) (d : dict) :
  Dict.get k (Dict.set k v d) = Some v.
Proof.
  induction d as [|[k' v'] d IH]; simpl.
  - now rewrite eqb_refl.
  - destruct (Str.eqb k k') eqn:E; simpl; rewrite E; [reflexivity | exact IH].
Qed.

Lemma substring_app_r (sub x z : pystr) :
  substring sub z -> substring sub (x ++ z).
Proof.
  intros [pre [post ->]]. exists (x ++ pre), post. now rewrite app_assoc.
Qed.

Lemma split_line (sep : N) (l rest : pystr) :
  ~ In sep l -> Str.split sep (l ++ sep :: rest) = l :: Str.split sep rest.
Proof.
  induction l as [|c l IH]; simpl; intros H.
  - now rewrite N.eqb_refl.
  - destruct (N.eqb_spec c sep) as [->|Hc]; [exfalso; apply H; now left|].
    rewrite IH by (intros Hin; apply H; now right). reflexivity.
Qed.

Lemma split_single (sep : N) (l : pystr) :
  ~ In sep l -> Str.split sep l = [l].
Proof.
  induction l as [|c l IH]; simpl; intros H; [reflexivity|].
  destruct (N.eqb_spec c sep) as [->|Hc]; [exfalso; apply H; now left|].
  rewrite IH by (intros Hin; apply H; now right). reflexivity.
Qed.

(** Splitting the join of separator-free lines gives the lines back. *)
Lemma split_join (sep : N) (ls : list pystr) :
  ls <> [] -> Forall (fun l => ~ In sep l) ls ->
  Str.split sep (Str.join [sep] ls) = ls.
Proof.
  induction ls as [|l ls IH]; [congruence|]. intros _ H.
  inversion H as [|? ? Hl Hls]; subst.
  destruct ls as [|l' ls].
  - simpl. now apply split_single.
  - change (Str.join [sep] (l :: l' :: ls))
      with (l ++ sep :: Str.join [sep] (l' :: ls)).
    rewrite split_line by exact Hl.
    f_equal. apply IH; [discriminate | exact Hls].
Qed.

Lemma dropwhile_app (p : N -> bool) (a b : pystr) :
  Str.dropwhile p a <> [] ->
  Str.dropwhile p (a ++ b) = Str.dropwhile p a ++ b.
Proof.
  induction a as [|c a IH]; simpl; [congruence|].
  destruct (p c); [exact IH | reflexivity].
Qed.

(** [rstrip] only looks at the end of a string that does not end in white
    space alone. *)
Lemma rstrip_app (x y : pystr) :
  Str.rstrip y <> [] -> Str.rstrip (x ++ y) = x ++ Str.rstrip y.
Proof.
  unfold Str.rstrip. intros H. rewrite rev_app_distr, dropwhile_app.
  - now rewrite rev_app_distr, rev_involutive.
  - intros E. apply H. now rewrite E.
Qed.

Lemma rstrip_app_nonempty (x y : pystr) :
  Str.rstrip y <> [] -> Str.rstrip (x ++ y) <> [].
Proof.
  intros H. rewrite rstrip_app by exact H. intros E.
  apply app_eq_nil in E. tauto.
Qed.

Lemma not_in_app (c : N) (a b : pystr) :
  ~ In c a -> ~ In c b -> ~ In c (a ++ b).
Proof. intros Ha Hb H. apply in_app_or in H. tauto. Qed.

Lemma not_in_closed (c : N) (l : pystr) :
  existsb (N.eqb c) l = false -> ~ In c l.
Proof.
  intros H Hin. assert (existsb (N.eqb c) l = true) as E; [|congruence].
  apply existsb_exists. exists c. split; [exact Hin | apply N.eqb_refl].
Qed.

Lemma split_nonempty (sep : N) (s : pystr) : Str.split sep s <> [].
Proof.
  induction s as [|c s IH]; simpl; [discriminate|].
  destruct (c =? sep)%N; [discriminate|].
  destruct (Str.split sep s); discriminate.
Qed.

(** The lines of a text cut at a separator are the lines of both parts. *)
Lemma split_app (sep : N) (x y : pystr) :
  Str.split sep (x ++ sep :: y) = Str.split sep x ++ Str.split sep y.
Proof.
  induction x as [|c x IH]; simpl.
  - now rewrite N.eqb_refl.
  - destruct (c =? sep)%N; rewrite IH; [reflexivity|].
    destruct (Str.split sep x) eqn:E; [|reflexivity].
    now apply split_nonempty in E.
Qed.

Lemma join_In (sep l : pystr) (ls : list pystr) :
  In l ls -> substring l (Str.join sep ls).
Proof.
  induction ls as [|a ls IH]; [contradiction|].
  intros [->|H].
  - destruct ls as [|b ls].
    + exists [], []. simpl. now rewrite app_nil_r.
    + exists [], (sep ++ Str.join sep (b :: ls)). reflexivity.
  - destruct ls as [|b ls]; [contradiction|].
    change (Str.join sep (a :: b :: ls))
      with (a ++ sep ++ Str.join sep (b :: ls)).
    do 2 apply substring_app_r. now apply IH.
Qed.

Lemma substring_trans (a b c : pystr) :
  substring a b -> substring b c -> substring a c.
Proof.
  intros [p1 [q1 ->]] [p2 [q2 ->]]. exists (p2 ++ p1), (q1 ++ q2).
  now rewrite <- !app_assoc.
Qed.

Lemma substring_rev (a s : pystr) : substring a s -> substring (rev a) (rev s).
Proof.
  intros [pre [post ->]]. exists (rev post), (rev pre).
  now rewrite !rev_app_distr, <- app_assoc.
Qed.

Lemma takewhile_all (p : N -> bool) (s : pystr) :
  forallb p (Str.takewhile p s) = true.
Proof.
  induction s as [|c s IH]; simpl; [reflexivity|].
  destruct (p c) eqn:E; simpl; [now rewrite E | reflexivity].
Qed.

Lemma skipn_prefix (m r : pystr) : skipn (List.length m) (m ++ r) = r.
Proof. induction m as [|x m IH]; simpl; [reflexivity | exact IH]. Qed.

(** Dropping a prefix chosen by [p] cannot reach into a word whose first
    character fails [p]. *)
Lemma dropwhile_keeps (p : N -> bool) (pre : pystr) (c : N) (k post : pystr) :
  p c = false ->
  substring (c :: k) (Str.dropwhile p (pre ++ (c :: k) ++ post)).
Proof.
  intros Hc. induction pre as [|x pre IH]; simpl.
  - rewrite Hc. now exists [], post.
  - destruct (p x); [exact IH|]. now exists (x :: pre), post.
Qed.

(** [strip] keeps every word that neither starts nor ends with white
    space. *)
Lemma strip_keeps (k s : pystr) :
  match k with c :: _ => Str.isspace c = false | [] => False end ->
  match rev k with c :: _ => Str.isspace c = false | [] => False end ->
  substring k s -> substring k (Str.strip s).
Proof.
  intros Hfirst Hlast Hsub. unfold Str.strip, Str.rstrip, Str.lstrip.
  destruct k as [|c k]; [contradiction|].
  destruct Hsub as [pre [post ->]].
  pose proof (@dropwhile_keeps Str.isspace pre c k post Hfirst) as H1.
  apply substring_rev in H1.
  destruct (rev (c :: k)) as [|d rk] eqn:Ek; [contradiction|].
  destruct H1 as [pre1 [post1 E1]]. rewrite E1.
  pose proof (@dropwhile_keeps Str.isspace pre1 d rk post1 Hlast) as H2.
  apply substring_rev in H2.
  assert (rev (d :: rk) = c :: k) as Er
    by (rewrite <- Ek; apply rev_involutive).
  now rewrite Er in H2.
Qed.

End StringFacts.

(* ===================================================================== *)
(** ** What [dedent] leaves alone *)
(* ===================================================================== *)

Section Dedent.

Lemma common_prefix_all (p : N -> bool) (a b : pystr) :
  forallb p a = true -> forallb p (Textwrap.common_prefix a b) = true.
Proof.
  revert b; induction a as [|x a IH]; intros [|y b]; simpl; try reflexivity.
  intros H. apply andb_true_iff in H as [Hx Ha].
  destruct (x =? y)%N; simpl; [|reflexivity]. now rewrite Hx, IH.
Qed.

(** Each round of the margin loop keeps a margin of spaces and tabs. *)
Lemma update_margin_blank (acc : option pystr) (l m : pystr) :
  (forall a, acc = Some a -> forallb Textwrap.blank a = true) ->
  Textwrap.update_margin acc (Str.takewhile Textwrap.blank l) = Some m ->
  forallb Textwrap.blank m = true.
Proof.
  intros Hacc. unfold Textwrap.update_margin. destruct acc as [m0|].
  - destruct (Str.startswith m0 _).
    + apply Hacc.
    + destruct (Str.startswith _ m0); intros E; injection E as <-.
      * apply takewhile_all.
      * apply common_prefix_all. now apply Hacc.
  - intros E. injection E as <-. apply takewhile_all.
Qed.

Lemma fold_margin_blank (ls : list pystr) (acc : option pystr) (m : pystr) :
  (forall a, acc = Some a -> forallb Textwrap.blank a = true) ->
  fold_left Textwrap.update_margin (map (Str.takewhile Textwrap.blank) ls) acc
  = Some m ->
  forallb Textwrap.blank m = true.
Proof.
  revert acc. induction ls as [|l ls IH]; simpl; intros acc Hacc H.
  - now apply Hacc.
  - apply IH in H; [exact H|].
    intros a Ha. exact (update_margin_blank _ Hacc Ha).
Qed.

(** The margin is made of spaces and tabs. *)
Lemma find_margin_blank (lines : list pystr) (m : pystr) :
  Textwrap.find_margin lines = Some m -> forallb Textwrap.blank m = true.
Proof.
  unfold Textwrap.find_margin, Textwrap.indents.
  apply fold_margin_blank. discriminate.
Qed.

Lemma skip_blank_prefix (m r pre : pystr) (c : N) (k post : pystr) :
  forallb Textwrap.blank m = true -> Textwrap.blank c = false ->
  m ++ r = pre ++ (c :: k) ++ post ->
  exists pre', r = pre' ++ (c :: k) ++ post.
Proof.
  revert pre; induction m as [|b m IH]; simpl; intros pre Hm Hc H.
  - now exists pre.
  - apply andb_true_iff in Hm as [Hb Hm].
    destruct pre as [|x pre]; simpl in H.
    + injection H as -> _. congruence.
    + injection H as _ H. now apply (IH pre).
Qed.

(** Removing the margin keeps a word that starts with a visible
    character. *)
Lemma remove_margin_keeps (m l : pystr) (c : N) (k : pystr) :
  forallb Textwrap.blank m = true -> Textwrap.blank c = false ->
  substring (c :: k) l -> substring (c :: k) (Textwrap.remove_margin m l).
Proof.
  intros Hm Hc Hsub. unfold Textwrap.remove_margin.
  destruct (Str.startswith m l) eqn:E; [|exact Hsub].
  apply startswith_spec in E as [r ->]. rewrite skipn_prefix.
  destruct Hsub as [pre [post H]].
  destruct (@skip_blank_prefix m r pre c k post Hm Hc H) as [pre' ->].
  now exists pre', post.
Qed.

Lemma visible_not_blank_line (l : pystr) (c : N) (k : pystr) :
  Textwrap.blank c = false -> substring (c :: k) l ->
  Textwrap.normalize_line l = l.
Proof.
  intros Hc [pre [post ->]]. unfold Textwrap.normalize_line.
  rewrite forallb_app. simpl. rewrite Hc.
  now rewrite andb_false_r.
Qed.

(** A word that starts with a visible character and lies within one line
    of the text is still in the dedented text. *)
Lemma dedent_keeps (text l : pystr) (c : N) (k : pystr) :
  Textwrap.blank c = false ->
  In l (Str.split nl text) -> substring (c :: k) l ->
  substring (c :: k) (Textwrap.dedent text).
Proof.
  intros Hc Hin Hsub. unfold Textwrap.dedent.
  assert (In l (map Textwrap.normalize_line (Str.split nl text))) as Hl.
  { rewrite <- (visible_not_blank_line Hc Hsub). now apply in_map. }
  destruct (Textwrap.find_margin _) as [[|c0 m]|] eqn:E.
  - exact (substring_trans Hsub (join_In [nl] _ _ Hl)).
  - apply find_margin_blank in E.
    apply (substring_trans (remove_margin_keeps _ E Hc Hsub)).
    apply join_In. now apply in_map.
  - exact (substring_trans Hsub (join_In [nl] _ _ Hl)).
Qed.

End Dedent.

(* ===================================================================== *)
(** ** The user prompt on one-line inputs *)
(* ===================================================================== *)

(** A character does not occur in a string built from literals and from
    strings known to be free of it. *)
Ltac char_free :=
  first [ assumption
        | apply not_in_closed; reflexivity
        | apply not_in_app; char_free ].

Section OneLinePrompt.

Variables topic query : pystr.
Hypothesis topic_one_line : ~ In nl topic.
Hypothesis query_one_line : ~ In nl query.

(** The lines of the template are the lines that [dedent] sees. *)
Lemma user_template_lines :
  Str.split nl (PromptEngine.user_template topic query)
  = [ lit "";
      lit "            Student topic: " ++ topic;
      lit "            Student research query: " ++ query ]
    ++ template_rest_lines.
Proof.
  unfold PromptEngine.user_template, PromptEngine.block.
  rewrite split_join; [reflexivity | discriminate |].
  repeat constructor; char_free.
Qed.

(** [dedent] removes the twelve spaces of the source indentation and
    empties the last line. *)
Lemma dedent_user_template :
  Textwrap.dedent (PromptEngine.user_template topic query)
  = [nl] ++ lit "Student topic: " ++ topic ++ [nl]
    ++ lit "Student research query: " ++ query ++ [nl]
    ++ PromptEngine.block (prompt_rest_lines ++ [[]]).
Proof.
  unfold Textwrap.dedent. rewrite user_template_lines.
  vm_compute. reflexivity.
Qed.

(** On one-line inputs the prompt is the template with topic and query
    inserted as they are. *)
Lemma build_user_prompt_one_line :
  PromptEngine.build_user_prompt topic query = single_line_prompt topic query.
Proof.
  unfold PromptEngine.build_user_prompt, single_line_prompt.
  rewrite dedent_user_template. unfold Str.strip.
  change (Str.lstrip ([nl] ++ lit "Student topic: " ++ ?rest))
    with (lit "Student topic: " ++ rest).
  assert (Str.rstrip (PromptEngine.block (prompt_rest_lines ++ [[]]))
          = PromptEngine.block prompt_rest_lines) as Hrest
    by (vm_compute; reflexivity).
  assert (Str.rstrip (PromptEngine.block (prompt_rest_lines ++ [[]])) <> [])
    as Hne by (rewrite Hrest; discriminate).
  assert (forall x y, Str.rstrip y <> [] -> Str.rstrip (x ++ y) <> [])
    as Hstep by exact rstrip_app_nonempty.
  do 6 (rewrite rstrip_app by auto 7).
  now rewrite Hrest.
Qed.

(** Hence it contains topic and query verbatim, and each required key. *)
Lemma build_user_prompt_one_line_contents :
  substring topic (PromptEngine.build_user_prompt topic query)
  /\ substring query (PromptEngine.build_user_prompt topic query)
  /\ Forall (fun k => substring k (PromptEngine.build_user_prompt topic query))
       ResearchService.REQUIRED_KEYS.
Proof.
  rewrite build_user_prompt_one_line. unfold single_line_prompt.
  split; [apply substring_mid|].
  split; [do 3 apply substring_app_r; apply substring_mid|].
  repeat constructor; do 6 apply substring_app_r;
    apply contains_spec; vm_compute; reflexivity.
Qed.

End OneLinePrompt.

(* ===================================================================== *)
(** ** The key names in the user prompt *)
(* ===================================================================== *)

Section PromptKeys.

Variables topic query : pystr.

(** The template is the two interpolated lines followed by the fixed
    lines. *)
Lemma user_template_cut :
  PromptEngine.user_template topic query
  = ([nl] ++ (lit "            Student topic: " ++ topic) ++ [nl]
       ++ lit "            Student research query: " ++ query)
    ++ nl :: PromptEngine.block template_rest_lines.
Proof. rewrite <- !app_assoc. reflexivity. Qed.

(** Whatever the topic and the query, the fixed lines are lines of the
    template. *)
Lemma rest_lines_in_template (l : pystr) :
  In l template_rest_lines ->
  In l (Str.split nl (PromptEngine.user_template topic query)).
Proof.
  intros H. rewrite user_template_cut, split_app.
  apply in_or_app. right.
  replace (Str.split nl (PromptEngine.block template_rest_lines))
    with template_rest_lines by (vm_compute; reflexivity).
  exact H.
Qed.

(** Each required key is spelled out in one of the fixed lines, and starts
    and ends with a visible character. *)
Lemma key_in_rest_line (k : pystr) :
  In k ResearchService.REQUIRED_KEYS ->
  exists c k' l,
    k = c :: k' /\ Textwrap.blank c = false /\ Str.isspace c = false
    /\ match rev k with d :: _ => Str.isspace d = false | [] => False end
    /\ In l template_rest_lines /\ substring k l.
Proof.
  intros Hk.
  assert (forallb
            (fun k =>
               match k, rev k with
               | c :: _, d :: _ =>
                   negb (Textwrap.blank c) && negb (Str.isspace c)
                   && negb (Str.isspace d)
                   && existsb (Str.contains k) template_rest_lines
               | _, _ => false
               end) ResearchService.REQUIRED_KEYS = true) as Hall
    by (vm_compute; reflexivity).
  rewrite forallb_forall in Hall. specialize (Hall k Hk).
  destruct k as [|c k']; [discriminate|].
  destruct (rev (c :: k')) as [|d rk]; [discriminate|].
  repeat (apply andb_true_iff in Hall as [Hall ?]).
  apply negb_true_iff in Hall.
  match goal with H : existsb _ _ = true |- _ =>
    apply existsb_exists in H as [l [Hl Hsub]] end.
  exists c, k', l. repeat split; try assumption.
  - now apply negb_true_iff.
  - now apply negb_true_iff.
  - now apply contains_spec.
Qed.

(** The prompt names the eleven required keys for every topic and
    query. *)
Lemma build_user_prompt_keys :
  Forall (fun k => substring k (PromptEngine.build_user_prompt topic query))
    ResearchService.REQUIRED_KEYS.
Proof.
  apply Forall_forall. intros k Hk.
  destruct (key_in_rest_line Hk)
    as [c [k' [l [-> [Hblank [Hspace [Hlast [Hl Hsub]]]]]]]].
  unfold PromptEngine.build_user_prompt.
  apply strip_keeps; [exact Hspace | exact Hlast |].
  exact (dedent_keeps _ Hblank (rest_lines_in_template Hl) Hsub).
Qed.

End PromptKeys.

(* ===================================================================== *)
(** ** The external client and the orchestration *)
(* ===================================================================== *)

Section Service.

Import ResearchService.

Variable W : World.
Variables topic query : pystr.

(** With nothing left of the credential after [strip], the client
    answers [None] and the trace is untouched. *)
Lemma try_without_key (tr : trace) :
  Str.strip (getenv W (lit "OPENAI_API_KEY") (lit "")) = [] ->
  _try_openai_json W topic query tr = (Ok None, tr).
Proof. intros H. unfold _try_openai_json. now rewrite H. Qed.

(** The [try] block hands back a dictionary only after the key-set test
    has passed. *)
Lemma try_body_some (req : Request) (tr tr' : trace) (d : dict) :
  try_body W req tr = (Ok (Some d), tr') ->
  issubset REQUIRED_KEYS (Dict.keys d) = true.
Proof.
  cbv [try_body bind lift urlopen ret].
  destruct (urlopen_read W req 45) as [body|]; [|discriminate].
  destruct (Json.loads body) as [raw|]; [|discriminate].
  destruct (getitem raw _) as [choices|]; [|discriminate].
  destruct (getitem choices _) as [first|]; [|discriminate].
  destruct (getitem first _) as [message|]; [|discriminate].
  destruct (getitem message _) as [content|]; [|discriminate].
  destruct (Json.loads_value content) as [parsed|]; [|discriminate].
  destruct (as_dict parsed) as [d'|]; [|discriminate].
  destruct (issubset REQUIRED_KEYS (Dict.keys d')) eqn:E; [|discriminate].
  intros H. injection H as <- _. exact E.
Qed.

Lemma try_some (tr tr' : trace) (d : dict) :
  _try_openai_json W topic query tr = (Ok (Some d), tr') ->
  issubset REQUIRED_KEYS (Dict.keys d) = true.
Proof.
  unfold _try_openai_json.
  destruct (Str.strip _) as [|c key]; [discriminate|].
  unfold try_except.
  destruct (try_body W _ tr) as [[[d'|]|e] tr0] eqn:E.
  - intros H. injection H as <- _. exact (try_body_some _ _ E).
  - discriminate.
  - destruct (catches EXCEPT e); discriminate.
Qed.

(** A dictionary with the required keys is not empty, hence true in a
    condition. *)
Lemma required_truthy (d : dict) :
  issubset REQUIRED_KEYS (Dict.keys d) = true -> Dict.truthy d = true.
Proof. destruct d; [discriminate | reflexivity]. Qed.

(** The three ways [generate_report] can end. *)
Lemma generate_report_cases (tr : trace) :
  generate_report W topic query tr =
  match _try_openai_json W topic query tr with
  | (Ok (Some d), tr') => (Ok d, tr')
  | (Ok None, tr') => (Ok (tagged_fallback topic query), tr')
  | (Raise e, tr') => (Raise e, tr')
  end.
Proof.
  unfold generate_report, bind.
  destruct (_try_openai_json W topic query tr) as [[[d|]|e] tr'] eqn:E;
    try reflexivity.
  now rewrite (required_truthy _ (try_some _ E)).
Qed.

Lemma fallback_keys :
  issubset REQUIRED_KEYS (Dict.keys (tagged_fallback topic query)) = true.
Proof. reflexivity. Qed.

Lemma fallback_shape : Shape.report (tagged_fallback topic query) = true.
Proof. destruct topic; reflexivity. Qed.

(** Whatever [generate_report] returns has the required keys. *)
Lemma generate_report_keys (tr tr' : trace) (r : dict) :
  generate_report W topic query tr = (Ok r, tr') ->
  issubset REQUIRED_KEYS (Dict.keys r) = true.
Proof.
  rewrite generate_report_cases.
  destruct (_try_openai_json W topic query tr) as [[[d|]|e] tr0] eqn:E;
    intros H; inversion H; subst.
  - exact (try_some _ E).
  - exact fallback_keys.
Qed.

(** [generate_report] returns as soon as the client does not raise. *)
Lemma generate_report_returns (tr tr' : trace) (external : option dict) :
  _try_openai_json W topic query tr = (Ok external, tr') ->
  exists r, generate_report W topic query tr = (Ok r, tr').
Proof.
  intros H. rewrite generate_report_cases, H.
  destruct external as [d|]; eauto.
Qed.

End Service.

(* ===================================================================== *)
(** ** Properties of the service *)
(* ===================================================================== *)

Import ResearchService.

(** C1.  Totality of [generate_report] fails on the code: with a credential
    set and a well-formed completion whose message content is [null],
    [json.loads(None)] raises [TypeError], the [except] clause does not
    list it, and [generate_report] raises instead of returning a report. *)
Theorem generate_report_raises_on_null_content :
  fst (generate_report
         (Scenario.replying (lit "sk-test") (Scenario.completion VNone))
         (lit "Computer Vision")
         (lit "How can students improve defect detection?") [])
  = Raise TypeError.
Proof. vm_compute. reflexivity. Qed.

(** C2.  [_try_openai_json] lets exceptions through: a body that is not an
    object raises [TypeError], an empty list of choices raises
    [IndexError], and embedded content that parses to a list raises
    [AttributeError]; none of them is in the [except] clause. *)
Theorem try_openai_json_raises_uncaught :
  fst (_try_openai_json (Scenario.replying (lit "sk-test") (lit "[]"))
         (lit "AI") (lit "q") []) = Raise TypeError
  /\ fst (_try_openai_json
            (Scenario.replying (lit "sk-test") Scenario.no_choices)
            (lit "AI") (lit "q") []) = Raise IndexError
  /\ fst (_try_openai_json
            (Scenario.replying (lit "sk-test")
               (Scenario.completion (VStr (lit "[1, 2]"))))
            (lit "AI") (lit "q") []) = Raise AttributeError
  /\ catches EXCEPT TypeError = false
  /\ catches EXCEPT IndexError = false
  /\ catches EXCEPT AttributeError = false.
Proof. repeat split; vm_compute; reflexivity. Qed.

(** C3, as stated, fails: the provider sends an object with the eleven
    keys all mapped to [null]; it passes the key-set test, is returned as
    it is, and has none of the shapes of the data model. *)
Lemma external_report_ignores_shapes :
  fst (generate_report
         (Scenario.replying (lit "sk-test")
            (Scenario.completion (Scenario.embedded Scenario.hollow_report)))
         (lit "AI") (lit "q") [])
  = Ok Scenario.hollow_report
  /\ Shape.report Scenario.hollow_report = false.
Proof. split; vm_compute; reflexivity. Qed.

(** C3, amended.  Every report returned by [generate_report] contains the
    eleven required keys, whichever path produced it; when the fallback
    path produced it (the client answered [None]) its values also have the
    shapes of the data model.  On the external path only the presence of
    the keys is checked. *)
Theorem reports_keys_and_fallback_shape
  (W : World) (topic query : pystr) (tr tr' : trace) (r : dict) :
  generate_report W topic query tr = (Ok r, tr') ->
  has_required_keys r
  /\ (fst (_try_openai_json W topic query tr) = Ok None ->
      Shape.report r = true).
Proof.
  intros H. split.
  - unfold has_required_keys. apply issubset_spec.
    exact (generate_report_keys _ _ _ _ H).
  - rewrite generate_report_cases in H.
    destruct (_try_openai_json W topic query tr) as [[[d|]|e] tr0];
      simpl; intros Hnone; try discriminate.
    injection H as <- _. apply fallback_shape.
Qed.

Lemma reports_keys_and_fallback_shape_witness :
  has_required_keys (tagged_fallback (lit "NLP") (lit "Topic"))
  /\ Shape.report (tagged_fallback (lit "NLP") (lit "Topic")) = true.
Proof.
  destruct (@reports_keys_and_fallback_shape Scenario.unconfigured
              (lit "NLP") (lit "Topic") [] []
              (tagged_fallback (lit "NLP") (lit "Topic")) eq_refl)
    as [Hkeys Hshape].
  split; [exact Hkeys | apply Hshape; reflexivity].
Defined.

(** C4, as stated, fails: extra keys are tolerated, so a provider report
    that carries a [prompt_debug] entry of its own is returned on the
    external path with that key present. *)
Lemma external_report_with_prompt_debug :
  fst (_try_openai_json
         (Scenario.replying (lit "sk-test")
            (Scenario.completion
               (Scenario.embedded Scenario.self_tagged_report)))
         (lit "AI") (lit "q") [])
  = Ok (Some Scenario.self_tagged_report)
  /\ fst (generate_report
            (Scenario.replying (lit "sk-test")
               (Scenario.completion
                  (Scenario.embedded Scenario.self_tagged_report)))
            (lit "AI") (lit "q") [])
     = Ok Scenario.self_tagged_report
  /\ Dict.mem (lit "prompt_debug") Scenario.self_tagged_report = true.
Proof. repeat split; vm_compute; reflexivity. Qed.

(** C4, amended.  Provenance tagging is a two-branch choice on the answer
    of the client.  On the fallback path the report has a [prompt_debug]
    entry whose [source] is ["fallback"] and whose [system_prompt] and
    [user_prompt] are the outputs of [PromptEngine] for the same topic and
    query.  On the external path the report is returned exactly as
    received: nothing is added, so [prompt_debug] is present only if the
    provider's object carried one. *)
Theorem provenance_two_branches
  (W : World) (topic query : pystr) (tr tr' : trace)
  (external : option dict) :
  _try_openai_json W topic query tr = (Ok external, tr') ->
  match external with
  | None =>
      exists r pd,
        generate_report W topic query tr = (Ok r, tr')
        /\ Dict.get (lit "prompt_debug") r = Some (VDict pd)
        /\ Dict.get (lit "source") pd = Some (VStr (lit "fallback"))
        /\ Dict.get (lit "system_prompt") pd
           = Some (VStr PromptEngine.build_system_prompt)
        /\ Dict.get (lit "user_prompt") pd
           = Some (VStr (PromptEngine.build_user_prompt topic query))
  | Some d => generate_report W topic query tr = (Ok d, tr')
  end.
Proof.
  intros H. rewrite generate_report_cases, H.
  destruct external as [d|]; [reflexivity|].
  eexists. eexists. split; [reflexivity|].
  split; [apply get_set_same|].
  repeat split.
Qed.

Lemma provenance_two_branches_witness :
  exists r pd,
    generate_report Scenario.unconfigured (lit "NLP") (lit "Topic") []
    = (Ok r, [])
    /\ Dict.get (lit "prompt_debug") r = Some (VDict pd)
    /\ Dict.get (lit "source") pd = Some (VStr (lit "fallback"))
    /\ Dict.get (lit "system_prompt") pd
       = Some (VStr PromptEngine.build_system_prompt)
    /\ Dict.get (lit "user_prompt") pd
       = Some (VStr (PromptEngine.build_user_prompt (lit "NLP") (lit "Topic"))).
Proof.
  exact (@provenance_two_branches Scenario.unconfigured
           (lit "NLP") (lit "Topic") [] [] None eq_refl).
Defined.

(** C5.  With [OPENAI_API_KEY] unset or empty, [_try_openai_json] answers
    [None] and performs no network call: the trace of outbound calls is
    the one it started with. *)
Theorem missing_credential_short_circuit
  (W : World) (topic query : pystr) (tr : trace) :
  environ W (lit "OPENAI_API_KEY") = None
  \/ environ W (lit "OPENAI_API_KEY") = Some [] ->
  _try_openai_json W topic query tr = (Ok None, tr).
Proof.
  intros H. apply try_without_key. unfold getenv.
  destruct H as [-> | ->]; reflexivity.
Qed.

Lemma missing_credential_short_circuit_witness :
  _try_openai_json Scenario.unconfigured (lit "Computer Vision")
    (lit "How can students improve defect detection?") []
  = (Ok None, []).
Proof.
  apply (@missing_credential_short_circuit Scenario.unconfigured).
  left. reflexivity.
Defined.

(** C6.  The schema test is a superset test on keys.  When the credential
    is set, the call succeeds, and the content of the first choice parses
    to a JSON object [d], the client returns [d] itself if [d] has every
    required key (other keys and all values are left alone) and [None] if
    a required key is missing. *)
Theorem schema_gate_superset
  (W : World) (topic query : pystr) (tr : trace)
  (c : N) (key body : pystr) (raw choices first message content : value)
  (d : dict) :
  Str.strip (getenv W (lit "OPENAI_API_KEY") (lit "")) = c :: key ->
  urlopen_read W
    (build_request (c :: key)
       (getenv W (lit "OPENAI_MODEL") (lit "gpt-4o-mini")) topic query) 45
  = Ok body ->
  Json.loads body = Ok raw ->
  getitem raw (IStr (lit "choices")) = Ok choices ->
  getitem choices (IInt 0) = Ok first ->
  getitem first (IStr (lit "message")) = Ok message ->
  getitem message (IStr (lit "content")) = Ok content ->
  Json.loads_value content = Ok (VDict d) ->
  fst (_try_openai_json W topic query tr)
  = Ok (if issubset REQUIRED_KEYS (Dict.keys d) then Some d else None)
  /\ (issubset REQUIRED_KEYS (Dict.keys d) = true <-> has_required_keys d).
Proof.
  intros Hkey Hbody Hraw Hchoices Hfirst Hmessage Hcontent Hparsed.
  split; [|apply issubset_spec].
  unfold _try_openai_json. rewrite Hkey.
  cbv [try_except try_body bind lift urlopen ret].
  rewrite Hbody, Hraw, Hchoices, Hfirst, Hmessage, Hcontent, Hparsed.
  simpl as_dict. cbv beta iota.
  destruct (issubset REQUIRED_KEYS (Dict.keys d)); reflexivity.
Qed.

Lemma schema_gate_superset_witness :
  fst (_try_openai_json
         (Scenario.replying (lit "sk-test")
            (Scenario.completion
               (Scenario.embedded Scenario.self_tagged_report)))
         (lit "AI") (lit "q") [])
  = Ok (Some Scenario.self_tagged_report).
Proof.
  refine (proj1
    (@schema_gate_superset
       (Scenario.replying (lit "sk-test")
          (Scenario.completion
             (Scenario.embedded Scenario.self_tagged_report)))
       (lit "AI") (lit "q") [] 115%N (lit "k-test")
       (Scenario.completion (Scenario.embedded Scenario.self_tagged_report))
       (Scenario.completion_doc
          (Scenario.embedded Scenario.self_tagged_report))
       (VList [Scenario.choice
                 (Scenario.embedded Scenario.self_tagged_report)])
       (Scenario.choice (Scenario.embedded Scenario.self_tagged_report))
       (Scenario.message (Scenario.embedded Scenario.self_tagged_report))
       (Scenario.embedded Scenario.self_tagged_report)
       Scenario.self_tagged_report
       _ _ _ _ _ _ _ _)); vm_compute; reflexivity.
Defined.

(** C7.  The fallback [literature_review] has exactly three entries, from
    "Google Scholar", "IEEE Xplore" and "PubMed" in this order, and the
    finding of each contains the topic verbatim. *)
Theorem literature_review_three_sources (topic query : pystr) :
  exists f1 f2 f3 : pystr,
    Dict.get (lit "literature_review") (_fallback_report topic query)
    = Some (VList
        [ VDict [ (lit "source", VStr (lit "Google Scholar"));
                  (lit "finding", VStr f1) ];
          VDict [ (lit "source", VStr (lit "IEEE Xplore"));
                  (lit "finding", VStr f2) ];
          VDict [ (lit "source", VStr (lit "PubMed"));
                  (lit "finding", VStr f3) ] ])
    /\ substring topic f1 /\ substring topic f2 /\ substring topic f3.
Proof.
  do 3 eexists. split; [reflexivity|].
  repeat split; apply substring_mid.
Qed.



(** C9.  The user prompt does not always contain the query verbatim:
    [dedent] runs after the interpolation, so an indented continuation
    line of the query becomes the common margin and loses its
    indentation. *)
Theorem user_prompt_loses_query_indentation :
  ~ substring Scenario.indented_query
      (PromptEngine.build_user_prompt (lit "AI") Scenario.indented_query).
Proof.
  intros H. apply contains_spec in H. vm_compute in H. discriminate H.
Qed.

(** C10.  A credential made of white space only is treated as absent:
    [strip] leaves the empty string, and [_try_openai_json] answers [None]
    without a network call. *)
Theorem blank_credential_short_circuit
  (W : World) (topic query : pystr) (tr : trace) (key : pystr) :
  environ W (lit "OPENAI_API_KEY") = Some key ->
  forallb Str.isspace key = true ->
  _try_openai_json W topic query tr = (Ok None, tr).
Proof.
  intros Henv Hblank. apply try_without_key.
  unfold getenv. rewrite Henv. exact (strip_blank _ Hblank).
Qed.

Lemma blank_credential_short_circuit_witness :
  _try_openai_json (Scenario.replying [32; 9; 10; 160]%N (lit "{}"))
    (lit "AI") (lit "q") []
  = (Ok None, []).
Proof.
  apply (@blank_credential_short_circuit
           (Scenario.replying [32; 9; 10; 160]%N (lit "{}"))
           (lit "AI") (lit "q") [] [32; 9; 10; 160]%N);
    reflexivity.
Defined.

(* ===================================================================== *)
(** ** Network use and failure handling of the client *)
(* ===================================================================== *)

Section Client.

Variable W : World.
Variables topic query : pystr.

(** The [try] block performs its one call first and nothing else touches
    the trace, whether the block returns or raises. *)
Lemma try_body_trace (req : Request) (tr : trace) :
  snd (try_body W req tr) = tr ++ [(req, 45%Z)].
Proof.
  cbv [try_body bind lift urlopen ret].
  destruct (urlopen_read W req 45) as [body|]; [|reflexivity].
  destruct (Json.loads body) as [raw|]; [|reflexivity].
  destruct (getitem raw _) as [choices|]; [|reflexivity].
  destruct (getitem choices _) as [first|]; [|reflexivity].
  destruct (getitem first _) as [message|]; [|reflexivity].
  destruct (getitem message _) as [content|]; [|reflexivity].
  destruct (Json.loads_value content) as [parsed|]; [|reflexivity].
  destruct (as_dict parsed) as [d|]; [|reflexivity].
  destruct (issubset REQUIRED_KEYS (Dict.keys d)); reflexivity.
Qed.

(** With a credential, the client is the [try] block with the listed
    classes turned into [None]. *)
Lemma try_with_key (tr : trace) (c : N) (key : pystr) :
  Str.strip (getenv W (lit "OPENAI_API_KEY") (lit "")) = c :: key ->
  _try_openai_json W topic query tr =
  match try_body W
          (build_request (c :: key)
             (getenv W (lit "OPENAI_MODEL") (lit "gpt-4o-mini")) topic query)
          tr with
  | (Raise e, tr') =>
      if catches EXCEPT e then (Ok None, tr') else (Raise e, tr')
  | done => done
  end.
Proof.
  intros H. unfold _try_openai_json. rewrite H. reflexivity.
Qed.

Lemma try_with_key_trace (tr : trace) (c : N) (key : pystr) :
  Str.strip (getenv W (lit "OPENAI_API_KEY") (lit "")) = c :: key ->
  snd (_try_openai_json W topic query tr)
  = tr ++ [(build_request (c :: key)
              (getenv W (lit "OPENAI_MODEL") (lit "gpt-4o-mini"))
              topic query, 45%Z)].
Proof.
  intros H. rewrite (try_with_key tr H).
  rewrite <- (try_body_trace _ tr).
  destruct (try_body W _ tr) as [[r|e] tr']; [reflexivity|].
  destruct (catches EXCEPT e); reflexivity.
Qed.

(** What the [try] block raises when its call raises, and when the body
    is not JSON. *)
Lemma try_body_transport (req : Request) (tr : trace) (e : exn) :
  urlopen_read W req 45 = Raise e ->
  try_body W req tr = (Raise e, tr ++ [(req, 45%Z)]).
Proof.
  intros H. cbv [try_body bind lift urlopen ret]. now rewrite H.
Qed.

Lemma try_body_bad_json (req : Request) (tr : trace) (body : pystr) (e : exn) :
  urlopen_read W req 45 = Ok body -> Json.loads body = Raise e ->
  try_body W req tr = (Raise e, tr ++ [(req, 45%Z)]).
Proof.
  intros H1 H2. cbv [try_body bind lift urlopen ret]. now rewrite H1, H2.
Qed.

Lemma try_body_no_choices (req : Request) (tr : trace) (body : pystr)
  (d : dict) :
  urlopen_read W req 45 = Ok body -> Json.loads body = Ok (VDict d) ->
  Dict.get (lit "choices") d = None ->
  try_body W req tr = (Raise KeyError, tr ++ [(req, 45%Z)]).
Proof.
  intros H1 H2 H3. cbv [try_body bind lift urlopen ret].
  rewrite H1, H2. simpl getitem. now rewrite H3.
Qed.

End Client.

(* ===================================================================== *)
(** ** Further properties of the report service *)
(* ===================================================================== *)

(** X1.  With a credential, [_try_openai_json] performs exactly one
    outbound call, whatever the answer and whether it returns or raises:
    a POST of the serialised payload to the chat-completions URL, with the
    stripped key as bearer token and a timeout of 45 seconds. *)
Theorem client_calls_once
  (W : World) (topic query : pystr) (tr : trace) (c : N) (key : pystr) :
  Str.strip (getenv W (lit "OPENAI_API_KEY") (lit "")) = c :: key ->
  exists req,
    snd (_try_openai_json W topic query tr) = tr ++ [(req, 45%Z)]
    /\ url req = lit "https://api.openai.com/v1/chat/completions"
    /\ method req = lit "POST"
    /\ headers req = [ (lit "Authorization", lit "Bearer " ++ c :: key);
                       (lit "Content-Type", lit "application/json") ]
    /\ data req
       = Json.dumps
           (payload (getenv W (lit "OPENAI_MODEL") (lit "gpt-4o-mini"))
              topic query).
Proof.
  intros H. eexists. split; [exact (try_with_key_trace W topic query tr H)|].
  repeat split.
Qed.

Lemma client_calls_once_witness :
  exists req,
    snd (_try_openai_json
           (Scenario.replying (lit "sk-test") Scenario.no_choices)
           (lit "AI") (lit "q") [])
    = [] ++ [(req, 45%Z)]
    /\ url req = lit "https://api.openai.com/v1/chat/completions"
    /\ method req = lit "POST"
    /\ headers req = [ (lit "Authorization", lit "Bearer " ++ lit "sk-test");
                       (lit "Content-Type", lit "application/json") ]
    /\ data req
       = Json.dumps (payload (lit "gpt-4o-mini") (lit "AI") (lit "q")).
Proof.
  exact (@client_calls_once
           (Scenario.replying (lit "sk-test") Scenario.no_choices)
           (lit "AI") (lit "q") [] 115%N (lit "k-test") eq_refl).
Defined.

(** X2.  [generate_report] adds nothing to the network use of the client:
    no call when the stripped credential is empty, one call otherwise, in
    every outcome. *)
Theorem generate_report_calls_at_most_once
  (W : World) (topic query : pystr) (tr : trace) :
  match Str.strip (getenv W (lit "OPENAI_API_KEY") (lit "")) with
  | [] => snd (generate_report W topic query tr) = tr
  | c :: key =>
      snd (generate_report W topic query tr)
      = tr ++ [(build_request (c :: key)
                  (getenv W (lit "OPENAI_MODEL") (lit "gpt-4o-mini"))
                  topic query, 45%Z)]
  end.
Proof.
  assert (snd (generate_report W topic query tr)
          = snd (_try_openai_json W topic query tr)) as Hsame.
  { rewrite generate_report_cases.
    destruct (_try_openai_json W topic query tr) as [[[d|]|e] tr'];
      reflexivity. }
  rewrite Hsame.
  destruct (Str.strip _) as [|c key] eqn:E.
  - now rewrite (try_without_key W topic query tr E).
  - exact (try_with_key_trace W topic query tr E).
Qed.

(** X3.  A transport failure degrades to the fallback: when the call
    raises [URLError], [HTTPError] or [TimeoutError], [generate_report]
    returns the tagged fallback report, after that one call. *)
Theorem transport_failure_falls_back
  (W : World) (topic query : pystr) (tr : trace) (c : N) (key : pystr)
  (e : exn) :
  Str.strip (getenv W (lit "OPENAI_API_KEY") (lit "")) = c :: key ->
  urlopen_read W
    (build_request (c :: key)
       (getenv W (lit "OPENAI_MODEL") (lit "gpt-4o-mini")) topic query) 45
  = Raise e ->
  e = URLError \/ e = HTTPError \/ e = TimeoutError ->
  generate_report W topic query tr
  = (Ok (tagged_fallback topic query),
     tr ++ [(build_request (c :: key)
               (getenv W (lit "OPENAI_MODEL") (lit "gpt-4o-mini"))
               topic query, 45%Z)]).
Proof.
  intros Hkey Hcall He.
  rewrite generate_report_cases, (try_with_key W topic query tr Hkey).
  rewrite (try_body_transport W _ tr Hcall).
  destruct He as [-> | [-> | ->]]; reflexivity.
Qed.

Lemma transport_failure_falls_back_witness :
  generate_report (Cases.failing (lit "sk-test") TimeoutError)
    (lit "AI") (lit "q") []
  = (Ok (tagged_fallback (lit "AI") (lit "q")),
     [] ++ [(Cases.request (lit "AI") (lit "q"), 45%Z)]).
Proof.
  apply (@transport_failure_falls_back
           (Cases.failing (lit "sk-test") TimeoutError)
           (lit "AI") (lit "q") [] 115%N (lit "k-test") TimeoutError).
  - reflexivity.
  - reflexivity.
  - right. right. reflexivity.
Defined.

(** X4.  A malformed answer degrades to the fallback: when the body, a
    text within the limits of the interpreter, is not valid JSON, or is a
    JSON object without a ["choices"] entry, [generate_report] returns
    the tagged fallback report. *)
Theorem malformed_answer_falls_back
  (W : World) (topic query : pystr) (tr : trace) (c : N) (key : pystr)
  (body : pystr) :
  Str.strip (getenv W (lit "OPENAI_API_KEY") (lit "")) = c :: key ->
  urlopen_read W
    (build_request (c :: key)
       (getenv W (lit "OPENAI_MODEL") (lit "gpt-4o-mini")) topic query) 45
  = Ok body ->
  Limits.text body = true ->
  Json.loads body = Raise JSONDecodeError
  \/ (exists d, Json.loads body = Ok (VDict d)
                /\ Dict.get (lit "choices") d = None) ->
  fst (generate_report W topic query tr) = Ok (tagged_fallback topic query).
Proof.
  intros Hkey Hcall _ Hbad.
  rewrite generate_report_cases, (try_with_key W topic query tr Hkey).
  destruct Hbad as [Hjson | [d [Hjson Hmiss]]].
  - now rewrite (try_body_bad_json W _ tr Hcall Hjson).
  - now rewrite (try_body_no_choices W _ tr Hcall Hjson Hmiss).
Qed.

Lemma malformed_answer_falls_back_witness :
  fst (generate_report (Scenario.replying (lit "sk-test") (lit "<html>"))
         (lit "AI") (lit "q") [])
  = Ok (tagged_fallback (lit "AI") (lit "q")).
Proof.
  apply (@malformed_answer_falls_back
           (Scenario.replying (lit "sk-test") (lit "<html>"))
           (lit "AI") (lit "q") [] 115%N (lit "k-test") (lit "<html>")).
  - reflexivity.
  - reflexivity.
  - reflexivity.
  - left. vm_compute. reflexivity.
Defined.

(** X5.  What escapes [generate_report] is never one of the classes of the
    [except] clause (nor a subclass), and nothing escapes before the
    network call: an exception means that a credential was set and that
    the one call was made. *)
Theorem escaping_exception_is_unlisted
  (W : World) (topic query : pystr) (tr tr' : trace) (e : exn) :
  generate_report W topic query tr = (Raise e, tr') ->
  catches EXCEPT e = false
  /\ exists c key,
       Str.strip (getenv W (lit "OPENAI_API_KEY") (lit "")) = c :: key
       /\ tr' = tr ++ [(build_request (c :: key)
                          (getenv W (lit "OPENAI_MODEL") (lit "gpt-4o-mini"))
                          topic query, 45%Z)].
Proof.
  intros H. rewrite generate_report_cases in H.
  destruct (Str.strip (getenv W (lit "OPENAI_API_KEY") (lit "")))
    as [|c key] eqn:E.
  - rewrite (try_without_key W topic query tr E) in H. discriminate.
  - pose proof (try_with_key_trace W topic query tr E) as Htrace.
    rewrite (try_with_key W topic query tr E) in H, Htrace.
    destruct (try_body W _ tr) as [[[d|]|e0] tr0]; try discriminate.
    destruct (catches EXCEPT e0) eqn:Ec; [discriminate|].
    injection H as <- <-. split; [exact Ec|].
    exists c, key. split; [reflexivity | exact Htrace].
Qed.

Lemma escaping_exception_is_unlisted_witness :
  catches EXCEPT IndexError = false
  /\ exists c key,
       Str.strip
         (getenv (Scenario.replying (lit "sk-test") Scenario.no_choices)
            (lit "OPENAI_API_KEY") (lit "")) = c :: key
       /\ [(Cases.request (lit "AI") (lit "q"), 45%Z)]
          = [] ++ [(build_request (c :: key)
                      (getenv
                         (Scenario.replying (lit "sk-test")
                            Scenario.no_choices)
                         (lit "OPENAI_MODEL") (lit "gpt-4o-mini"))
                      (lit "AI") (lit "q"), 45%Z)].
Proof.
  apply (@escaping_exception_is_unlisted
           (Scenario.replying (lit "sk-test") Scenario.no_choices)
           (lit "AI") (lit "q") []).
  vm_compute. reflexivity.
Defined.

(** X6.  Without a usable credential (unset, empty or blank) the service
    works offline: [generate_report] returns the fallback report of the
    topic and query, tagged with its provenance, and makes no call. *)
Theorem offline_report
  (W : World) (topic query : pystr) (tr : trace) :
  Str.strip (getenv W (lit "OPENAI_API_KEY") (lit "")) = [] ->
  generate_report W topic query tr
  = (Ok (Dict.set (lit "prompt_debug") (prompt_debug topic query)
           (_fallback_report topic query)), tr).
Proof.
  intros H.
  now rewrite generate_report_cases, (try_without_key W topic query tr H).
Qed.

Lemma offline_report_witness :
  generate_report Scenario.unconfigured (lit "NLP") (lit "Topic") []
  = (Ok (Dict.set (lit "prompt_debug")
           (prompt_debug (lit "NLP") (lit "Topic"))
           (_fallback_report (lit "NLP") (lit "Topic"))), []).
Proof.
  apply (@offline_report Scenario.unconfigured). reflexivity.
Defined.

(** X7.  On one-line inputs [dedent] removes the source indentation and
    nothing else: the user prompt is the plain template with topic and
    query inserted as they are. *)
Theorem user_prompt_closed_form (topic query : pystr) :
  ~ In nl topic -> ~ In nl query ->
  PromptEngine.build_user_prompt topic query
  = lit "Student topic: " ++ topic ++ [nl]
    ++ lit "Student research query: " ++ query ++ [nl]
    ++ PromptEngine.block prompt_rest_lines.
Proof. intros Ht Hq. exact (@build_user_prompt_one_line topic query Ht Hq). Qed.

Lemma user_prompt_closed_form_witness :
  PromptEngine.build_user_prompt (lit "Edge AI")
    (lit "How to optimize edge inference?")
  = lit "Student topic: " ++ lit "Edge AI" ++ [nl]
    ++ lit "Student research query: "
    ++ lit "How to optimize edge inference?" ++ [nl]
    ++ PromptEngine.block prompt_rest_lines.
Proof.
  apply (@user_prompt_closed_form (lit "Edge AI")
           (lit "How to optimize edge inference?"));
    apply not_in_closed; reflexivity.
Defined.

(** X8.  Whatever the topic and the query, multi-line or not, the user
    prompt spells out each of the eleven required key names. *)
Theorem user_prompt_names_required_keys (topic query : pystr) :
  Forall (fun k => substring k (PromptEngine.build_user_prompt topic query))
    REQUIRED_KEYS.
Proof. exact (build_user_prompt_keys topic query). Qed.

(** X9.  The fallback texts refer to their inputs: the abstract contains
    the topic and the query, the introduction and the conclusion contain
    the topic, and so does each of the three references. *)
Theorem fallback_mentions_inputs (topic query : pystr) :
  (exists a, Dict.get (lit "abstract") (_fallback_report topic query)
             = Some (VStr a)
             /\ substring topic a /\ substring query a)
  /\ (exists i, Dict.get (lit "introduction") (_fallback_report topic query)
                = Some (VStr i) /\ substring topic i)
  /\ (exists c, Dict.get (lit "conclusion") (_fallback_report topic query)
                = Some (VStr c) /\ substring topic c)
  /\ (exists r1 r2 r3,
        Dict.get (lit "references") (_fallback_report topic query)
        = Some (VList [VStr r1; VStr r2; VStr r3])
        /\ substring topic r1 /\ substring topic r2 /\ substring topic r3).
Proof.
  repeat split.
  - eexists. split; [reflexivity|]. split.
    + apply substring_mid.
    + do 2 apply substring_app_r. apply substring_mid.
  - eexists. split; [reflexivity|]. exists [], (lit " is an important research area in both academia and industry. This report explains the current state of knowledge and where a student can contribute new findings."). reflexivity.
  - eexists. split; [reflexivity|]. apply substring_mid.
  - do 3 eexists. split; [reflexivity|]. repeat split; apply substring_mid.
Qed.

(* ===================================================================== *)
(** ** The e-mail pattern *)
(* ===================================================================== *)

Section EmailPattern.

(** [class+] followed by [k]: a non-empty run of the class, then [k]. *)
Lemma plus_spec (p : N -> bool) (k : pystr -> bool) (s : pystr) :
  Re.plus p k s = true <->
  exists a r, s = a ++ r /\ a <> [] /\ forallb p a = true /\ k r = true.
Proof.
  induction s as [|c s IH]; simpl.
  - split; [discriminate|].
    intros [a [r [H [Ha _]]]]. destruct a; [congruence | discriminate].
  - rewrite andb_true_iff, orb_true_iff, IH. split.
    + intros [Hc [[a [r [-> [Ha [Hp Hk]]]]] | Hk]].
      * exists (c :: a), r. simpl. rewrite Hc, Hp.
        repeat split; [discriminate | exact Hk].
      * exists [c], s. simpl. rewrite Hc.
        repeat split; [discriminate | exact Hk].
    + intros [a [r [H [Ha [Hp Hk]]]]].
      destruct a as [|x a]; [congruence|].
      simpl in H. injection H as -> ->. simpl in Hp.
      apply andb_true_iff in Hp as [Hx Hp]. split; [exact Hx|].
      destruct a as [|y a]; [right; exact Hk|].
      left. exists (y :: a), r. repeat split; [discriminate | exact Hp | exact Hk].
Qed.

Lemma at_end_spec (s : pystr) :
  Re.at_end s = true <-> s = [] \/ s = [nl].
Proof.
  destruct s as [|c [|d s]]; simpl.
  - tauto.
  - rewrite N.eqb_eq. split; [intros ->; now right|].
    intros [H|H]; [discriminate | now injection H].
  - split; [discriminate | intros [H|H]; discriminate].
Qed.

(** What [EMAIL_REGEX] accepts: a local part, [@], a domain, [.], a last
    part, each a non-empty run of characters other than [@] and white
    space, and then the end of the string or one final newline. *)
Lemma email_regex_spec (s : pystr) :
  Re.matches App.EMAIL_REGEX s = true <->
  exists a b c tail,
    s = a ++ [64%N] ++ b ++ [46%N] ++ c ++ tail
    /\ a <> [] /\ b <> [] /\ c <> []
    /\ forallb App.email_char a = true
    /\ forallb App.email_char b = true
    /\ forallb App.email_char c = true
    /\ (tail = [] \/ tail = [nl]).
Proof.
  unfold Re.matches, App.EMAIL_REGEX. cbn [Re.run andb].
  rewrite plus_spec. split.
  - intros [a [r [-> [Ha [Hpa Hk]]]]].
    destruct r as [|x r]; [discriminate|].
    apply andb_true_iff in Hk as [Hx Hk]. apply N.eqb_eq in Hx. subst x.
    apply plus_spec in Hk as [b [r2 [-> [Hb [Hpb Hk]]]]].
    destruct r2 as [|y r2]; [discriminate|].
    apply andb_true_iff in Hk as [Hy Hk]. apply N.eqb_eq in Hy. subst y.
    apply plus_spec in Hk as [c [tail [-> [Hc [Hpc Hk]]]]].
    rewrite andb_true_r in Hk. apply at_end_spec in Hk.
    exists a, b, c, tail. repeat split; assumption.
  - intros [a [b [c [tail [-> [Ha [Hb [Hc [Hpa [Hpb [Hpc Htail]]]]]]]]]]].
    exists a, ([64%N] ++ b ++ [46%N] ++ c ++ tail).
    repeat split; try assumption.
    simpl. apply plus_spec.
    exists b, ([46%N] ++ c ++ tail). repeat split; try assumption.
    simpl. apply plus_spec.
    exists c, tail. repeat split; try assumption.
    rewrite andb_true_r. now apply at_end_spec.
Qed.

Lemma email_char_not_at (a : pystr) :
  forallb App.email_char a = true -> count_occ N.eq_dec a 64%N = 0.
Proof.
  induction a as [|x a IH]; simpl; [reflexivity|].
  intros H. apply andb_true_iff in H as [Hx Ha].
  unfold App.email_char in Hx. apply andb_true_iff in Hx as [Hx _].
  apply negb_true_iff, N.eqb_neq in Hx.
  destruct (N.eq_dec x 64); [contradiction | now apply IH].
Qed.

Lemma email_char_not_space (a : pystr) :
  forallb App.email_char a = true ->
  forallb (fun c => negb (Str.isspace c)) a = true.
Proof.
  induction a as [|x a IH]; simpl; [reflexivity|].
  intros H. apply andb_true_iff in H as [Hx Ha].
  unfold App.email_char in Hx. apply andb_true_iff in Hx as [_ Hx].
  now rewrite Hx, IH.
Qed.

End EmailPattern.

(** X10.  An address accepted by [EMAIL_REGEX] has a non-empty local part,
    one [@], and a domain with a dot that has something on both sides;
    none of the parts contains [@] or white space.  The only thing allowed
    after the last part is a single newline, which [$] lets through. *)
Theorem email_regex_accepts (s : pystr) :
  Re.matches App.EMAIL_REGEX s = true <->
  exists a b c tail,
    s = a ++ [64%N] ++ b ++ [46%N] ++ c ++ tail
    /\ a <> [] /\ b <> [] /\ c <> []
    /\ forallb App.email_char a = true
    /\ forallb App.email_char b = true
    /\ forallb App.email_char c = true
    /\ (tail = [] \/ tail = [nl]).
Proof. exact (email_regex_spec s). Qed.

(** X11.  An accepted address contains exactly one [@]. *)
Theorem accepted_email_has_one_at (s : pystr) :
  Re.matches App.EMAIL_REGEX s = true ->
  count_occ N.eq_dec s 64%N = 1.
Proof.
  intros H. apply email_regex_spec in H
    as [a [b [c [tail [-> [_ [_ [_ [Ha [Hb [Hc Htail]]]]]]]]]]].
  rewrite !count_occ_app.
  rewrite (email_char_not_at _ Ha), (email_char_not_at _ Hb),
    (email_char_not_at _ Hc).
  destruct Htail as [-> | ->]; reflexivity.
Qed.

Lemma accepted_email_has_one_at_witness :
  count_occ N.eq_dec (lit "ada@example.org") 64%N = 1.
Proof.
  apply (@accepted_email_has_one_at (lit "ada@example.org")).
  reflexivity.
Defined.

(* ===================================================================== *)
(** ** More facts about [strip] *)
(* ===================================================================== *)

Section StripFacts.

Lemma dropwhile_head (p : N -> bool) (s : pystr) (c : N) (r : pystr) :
  Str.dropwhile p s = c :: r -> p c = false.
Proof.
  induction s as [|x s IH]; simpl; [discriminate|].
  destruct (p x) eqn:E; [exact IH|].
  intros H. injection H as <- _. exact E.
Qed.

Lemma dropwhile_idem (p : N -> bool) (s : pystr) :
  Str.dropwhile p (Str.dropwhile p s) = Str.dropwhile p s.
Proof.
  destruct (Str.dropwhile p s) as [|c r] eqn:E; [reflexivity|].
  simpl. now rewrite (dropwhile_head _ _ E).
Qed.

Lemma dropwhile_length (p : N -> bool) (s : pystr) :
  List.length (Str.dropwhile p s) <= List.length s.
Proof.
  induction s as [|x s IH]; simpl; [lia|].
  destruct (p x); simpl; lia.
Qed.

(** What [dropwhile] removes is a prefix made of characters of [p]. *)
Lemma dropwhile_split (p : N -> bool) (s : pystr) :
  exists w, s = w ++ Str.dropwhile p s /\ forallb p w = true.
Proof.
  induction s as [|x s [w [Hs Hw]]]; simpl.
  - now exists [].
  - destruct (p x) eqn:E.
    + exists (x :: w). simpl. rewrite E, Hw. split; [now f_equal | reflexivity].
    + now exists [].
Qed.

Lemma rstrip_idem (s : pystr) : Str.rstrip (Str.rstrip s) = Str.rstrip s.
Proof.
  unfold Str.rstrip. now rewrite rev_involutive, dropwhile_idem.
Qed.

(** [rstrip] keeps a first character that is not white space. *)
Lemma rstrip_head (c : N) (r : pystr) :
  Str.isspace c = false ->
  exists r', Str.rstrip (c :: r) = c :: r'.
Proof.
  intros Hc. unfold Str.rstrip. simpl rev.
  destruct (dropwhile_split Str.isspace (rev r ++ [c])) as [w [Hs Hw]].
  assert (rev (Str.dropwhile Str.isspace (rev r ++ [c])) ++ rev w = c :: r)
    as H.
  { rewrite <- rev_app_distr, <- Hs, rev_app_distr, rev_involutive.
    reflexivity. }
  destruct (rev (Str.dropwhile Str.isspace (rev r ++ [c]))) as [|x l] eqn:E.
  - simpl in H. exfalso.
    assert (forallb Str.isspace (rev w) = true) as Hrw.
    { rewrite forallb_forall in *. intros y Hy. apply Hw.
      now apply in_rev. }
    rewrite H in Hrw. simpl in Hrw. now rewrite Hc in Hrw.
  - simpl in H. injection H as -> _. now exists l.
Qed.

(** A stripped string is left alone by [strip]. *)
Lemma strip_idem (s : pystr) : Str.strip (Str.strip s) = Str.strip s.
Proof.
  unfold Str.strip, Str.lstrip.
  destruct (Str.dropwhile Str.isspace s) as [|c r] eqn:E.
  - reflexivity.
  - pose proof (dropwhile_head _ _ E) as Hc.
    destruct (@rstrip_head c r Hc) as [r' Hr]. rewrite Hr.
    simpl Str.dropwhile. rewrite Hc. rewrite <- Hr. apply rstrip_idem.
Qed.

Lemma strip_length (s : pystr) :
  List.length (Str.strip s) <= List.length s.
Proof.
  unfold Str.strip, Str.rstrip, Str.lstrip.
  rewrite length_rev.
  pose proof (dropwhile_length Str.isspace
                (rev (Str.dropwhile Str.isspace s))) as H1.
  rewrite length_rev in H1.
  pose proof (dropwhile_length Str.isspace s). lia.
Qed.

End StripFacts.

(* ===================================================================== *)
(** ** Request validation *)
(* ===================================================================== *)

Section Validation.

Variable lower : pystr -> pystr.

(** A field strips to something non-empty only if the payload is an object
    that holds a string under the key. *)
Lemma stripped_nonempty (payload : value) (key : pystr) (c : N) (s : pystr) :
  App.stripped payload key = Ok (c :: s) <->
  exists d raw,
    payload = VDict d /\ Dict.get key d = Some (VStr raw)
    /\ Str.strip raw = c :: s.
Proof.
  unfold App.stripped, App.get, App.strip, and_then. split.
  - destruct payload as [| | | | |l|d]; try discriminate.
    destruct (Dict.get key d) as [v|] eqn:E; [|discriminate].
    destruct v as [| | | |raw| |]; try discriminate.
    intros H. injection H as H. now exists d, raw.
  - intros [d [raw [-> [-> H]]]]. now rewrite H.
Qed.

(** A field strips to nothing when it is missing or holds a blank
    string. *)
Lemma stripped_empty (d : dict) (key : pystr) :
  Dict.get key d = None
  \/ (exists raw, Dict.get key d = Some (VStr raw) /\ Str.strip raw = []) ->
  App.stripped (VDict d) key = Ok [].
Proof.
  unfold App.stripped, App.get, App.strip, and_then.
  intros [-> | [raw [-> H]]]; [reflexivity | now rewrite H].
Qed.

Lemma stripped_non_string (d : dict) (key : pystr) (v : value) :
  Dict.get key d = Some v -> (forall s, v <> VStr s) ->
  App.stripped (VDict d) key = Raise AttributeError.
Proof.
  unfold App.stripped, App.get, App.strip, and_then. intros -> H.
  destruct v; try reflexivity. now destruct (H s).
Qed.

(** The loop passes the keys that are filled and stops at the first that
    is not. *)
Lemma first_blank_skip (payload : value) (pre rest : list pystr) :
  Forall (filled payload) pre ->
  App.first_blank payload (pre ++ rest) = App.first_blank payload rest.
Proof.
  induction 1 as [|k pre [c [s Hk]] _ IH]; [reflexivity|].
  simpl. rewrite Hk. exact IH.
Qed.

Lemma first_blank_none (payload : value) (keys : list pystr) :
  App.first_blank payload keys = Ok None <-> Forall (filled payload) keys.
Proof.
  induction keys as [|k keys IH]; simpl.
  - split; [constructor | reflexivity].
  - unfold and_then. split.
    + destruct (App.stripped payload k) as [[|c s]|e] eqn:E; try discriminate.
      intros H. constructor; [now exists c, s | now apply IH].
    + intros H. inversion H as [|? ? [c [s Hk]] Hrest]; subst.
      rewrite Hk. now apply IH.
Qed.

(** The four facts behind a payload that passes the loop. *)
Lemma required_filled (payload : value) :
  Forall (filled payload) App.required ->
  exists d name email topic query,
    payload = VDict d
    /\ Dict.get (lit "student_name") d = Some (VStr name)
    /\ Str.strip name <> []
    /\ Dict.get (lit "student_email") d = Some (VStr email)
    /\ Str.strip email <> []
    /\ Dict.get (lit "topic") d = Some (VStr topic)
    /\ Str.strip topic <> []
    /\ Dict.get (lit "query") d = Some (VStr query)
    /\ Str.strip query <> [].
Proof.
  unfold App.required. intros H.
  inversion H as [|? ? [c1 [s1 H1]] H']; subst.
  inversion H' as [|? ? [c2 [s2 H2]] H'']; subst.
  inversion H'' as [|? ? [c3 [s3 H3]] H''']; subst.
  inversion H''' as [|? ? [c4 [s4 H4]] _]; subst.
  apply stripped_nonempty in H1 as [d [name [-> [G1 S1]]]].
  apply stripped_nonempty in H2 as [d2 [email [E2 [G2 S2]]]].
  apply stripped_nonempty in H3 as [d3 [topic [E3 [G3 S3]]]].
  apply stripped_nonempty in H4 as [d4 [query [E4 [G4 S4]]]].
  injection E2 as <-. injection E3 as <-. injection E4 as <-.
  exists d, name, email, topic, query.
  rewrite S1, S2, S3, S4. repeat split; try assumption; discriminate.
Qed.

Lemma filled_intro (d : dict) (key raw : pystr) :
  Dict.get key d = Some (VStr raw) -> Str.strip raw <> [] ->
  filled (VDict d) key.
Proof.
  intros Hget Hne. destruct (Str.strip raw) as [|c s] eqn:E; [congruence|].
  exists c, s. apply stripped_nonempty. now exists d, raw.
Qed.

(** The validator, read as a decision: what it takes to be accepted. *)
Lemma validate_true (payload : value) (msg : pystr) :
  App._validate_research_payload lower payload = Ok (true, msg) <->
  msg = []
  /\ exists d name email topic query,
       payload = VDict d
       /\ Dict.get (lit "student_name") d = Some (VStr name)
       /\ Str.strip name <> []
       /\ Dict.get (lit "student_email") d = Some (VStr email)
       /\ Str.strip email <> []
       /\ Re.matches App.EMAIL_REGEX (lower (Str.strip email)) = true
       /\ Dict.get (lit "topic") d = Some (VStr topic)
       /\ Str.strip topic <> []
       /\ List.length topic <= 300
       /\ Dict.get (lit "query") d = Some (VStr query)
       /\ Str.strip query <> []
       /\ List.length query <= 5000.
Proof.
  unfold App._validate_research_payload. split.
  - destruct (App.first_blank payload App.required) as [[k|]|e] eqn:Hfb;
      try discriminate.
    apply first_blank_none, required_filled in Hfb
      as [d [name [email [topic [query
            [-> [Gn [Sn [Ge [Se [Gt [St [Gq Sq]]]]]]]]]]]]].
    cbn [and_then]. unfold App.stripped, App.get, App.strip, App.len.
    cbn [and_then]. rewrite Ge, Gt, Gq. cbn [and_then].
    destruct (Re.matches App.EMAIL_REGEX (lower (Str.strip email))) eqn:Hm;
      [|discriminate].
    cbn [negb]. cbv iota.
    destruct (300 <? List.length topic) eqn:Ht; [discriminate|].
    destruct (5000 <? List.length query) eqn:Hq; [discriminate|].
    intros H. injection H as <-.
    apply Nat.ltb_ge in Ht. apply Nat.ltb_ge in Hq.
    split; [reflexivity|].
    exists d, name, email, topic, query. repeat split; assumption.
  - intros [-> [d [name [email [topic [query
            [-> [Gn [Sn [Ge [Se [Hm [Gt [St [Ht [Gq [Sq Hq]]]]]]]]]]]]]]]]].
    assert (App.first_blank (VDict d) App.required = Ok None) as Hfb.
    { apply first_blank_none. unfold App.required.
      repeat constructor; eapply filled_intro; eassumption. }
    rewrite Hfb. cbn [and_then].
    unfold App.stripped, App.get, App.strip, App.len.
    cbn [and_then]. rewrite Ge, Gt, Gq. cbn [and_then]. rewrite Hm.
    cbn [negb]. cbv iota.
    apply Nat.ltb_ge in Ht. apply Nat.ltb_ge in Hq.
    now rewrite Ht, Hq.
Qed.

(** The verdict when the loop stops at [k]: the key is reported, or the
    exception of its field goes through. *)
Lemma validate_stops_blank (d : dict) (pre post : list pystr) (k : pystr) :
  App.required = pre ++ k :: post ->
  Forall (filled (VDict d)) pre ->
  App.stripped (VDict d) k = Ok [] ->
  App._validate_research_payload lower (VDict d)
  = Ok (false, k ++ lit " is required").
Proof.
  intros Hreq Hpre Hk. unfold App._validate_research_payload.
  rewrite Hreq, (first_blank_skip _ Hpre). cbn [App.first_blank and_then].
  now rewrite Hk.
Qed.

Lemma validate_stops_raise (d : dict) (pre post : list pystr) (k : pystr)
  (e : exn) :
  App.required = pre ++ k :: post ->
  Forall (filled (VDict d)) pre ->
  App.stripped (VDict d) k = Raise e ->
  App._validate_research_payload lower (VDict d) = Raise e.
Proof.
  intros Hreq Hpre Hk. unfold App._validate_research_payload.
  rewrite Hreq, (first_blank_skip _ Hpre). cbn [App.first_blank and_then].
  now rewrite Hk.
Qed.

Lemma filled_all (d : dict) (pre : list pystr) :
  (forall k, In k pre ->
     exists raw, Dict.get k d = Some (VStr raw) /\ Str.strip raw <> []) ->
  Forall (filled (VDict d)) pre.
Proof.
  intros H. apply Forall_forall. intros k Hk.
  destruct (H k Hk) as [raw [Hget Hne]]. exact (@filled_intro d k raw Hget Hne).
Qed.

End Validation.

(* ===================================================================== *)
(** ** Properties of the request validation *)
(* ===================================================================== *)

(** X12.  [_validate_research_payload] answers [(True, "")] exactly for a
    JSON object whose [student_name], [student_email], [topic] and [query]
    are strings that are not blank, whose stripped and lower-cased e-mail
    matches [EMAIL_REGEX], and whose topic and query, as sent and not as
    stripped, have at most 300 and 5000 characters. *)
Theorem validation_accepts_exactly
  (lower : pystr -> pystr) (payload : value) (msg : pystr) :
  App._validate_research_payload lower payload = Ok (true, msg) <->
  msg = []
  /\ exists d name email topic query,
       payload = VDict d
       /\ Dict.get (lit "student_name") d = Some (VStr name)
       /\ Str.strip name <> []
       /\ Dict.get (lit "student_email") d = Some (VStr email)
       /\ Str.strip email <> []
       /\ Re.matches App.EMAIL_REGEX (lower (Str.strip email)) = true
       /\ Dict.get (lit "topic") d = Some (VStr topic)
       /\ Str.strip topic <> []
       /\ List.length topic <= 300
       /\ Dict.get (lit "query") d = Some (VStr query)
       /\ Str.strip query <> []
       /\ List.length query <= 5000.
Proof. exact (validate_true lower payload msg). Qed.

(** X13.  The fields are checked in the order [student_name],
    [student_email], [topic], [query]: when the fields before [k] are
    filled and [k] is missing or blank, the verdict is [False] with the
    message ["<k> is required"], whatever the later fields hold. *)
Theorem first_missing_field_is_reported
  (lower : pystr -> pystr) (d : dict) (pre post : list pystr) (k : pystr) :
  App.required = pre ++ k :: post ->
  (forall k', In k' pre ->
     exists raw, Dict.get k' d = Some (VStr raw) /\ Str.strip raw <> []) ->
  Dict.get k d = None
  \/ (exists raw, Dict.get k d = Some (VStr raw) /\ Str.strip raw = []) ->
  App._validate_research_payload lower (VDict d)
  = Ok (false, k ++ lit " is required").
Proof.
  intros Hreq Hpre Hk.
  eapply validate_stops_blank.
  - exact Hreq.
  - now apply filled_all.
  - now apply stripped_empty.
Qed.

Lemma first_missing_field_is_reported_witness :
  App._validate_research_payload Cases.ascii_lower
    (VDict [ (lit "query", VInt 3);
             (lit "student_name", VStr (lit "Ada"));
             (lit "student_email", VStr (lit "   ")) ])
  = Ok (false, lit "student_email" ++ lit " is required").
Proof.
  apply (@first_missing_field_is_reported Cases.ascii_lower _
           [lit "student_name"] [lit "topic"; lit "query"]).
  - reflexivity.
  - intros k' [<- | []]. exists (lit "Ada"). split; [reflexivity|].
    vm_compute. discriminate.
  - right. exists (lit "   "). split; reflexivity.
Defined.

(** X14.  A field that is present but is not a string is not reported as
    invalid: when the fields before [k] are filled and [k] holds a number,
    [null], a list or an object, the validator raises [AttributeError]. *)
Theorem non_string_field_raises
  (lower : pystr -> pystr) (d : dict) (pre post : list pystr) (k : pystr)
  (v : value) :
  App.required = pre ++ k :: post ->
  (forall k', In k' pre ->
     exists raw, Dict.get k' d = Some (VStr raw) /\ Str.strip raw <> []) ->
  Dict.get k d = Some v -> (forall s, v <> VStr s) ->
  App._validate_research_payload lower (VDict d) = Raise AttributeError.
Proof.
  intros Hreq Hpre Hk Hv.
  eapply validate_stops_raise.
  - exact Hreq.
  - now apply filled_all.
  - eapply stripped_non_string; eassumption.
Qed.

Lemma non_string_field_raises_witness :
  App._validate_research_payload Cases.ascii_lower Cases.null_topic
  = Raise AttributeError.
Proof.
  apply (@non_string_field_raises Cases.ascii_lower _
           [lit "student_name"; lit "student_email"] [lit "query"]
           (lit "topic") VNone).
  - reflexivity.
  - intros k' [<- | [<- | []]].
    + exists (lit "Ada"). split; [reflexivity | vm_compute; discriminate].
    + exists (lit "ada@example.org").
      split; [reflexivity | vm_compute; discriminate].
  - reflexivity.
  - discriminate.
Defined.

(** X15.  A payload that is not a JSON object (a list, a string, a number)
    makes the validator raise [AttributeError]: [get] is a method of
    dictionaries only. *)
Theorem non_object_payload_raises
  (lower : pystr -> pystr) (payload : value) :
  (forall d, payload <> VDict d) ->
  App._validate_research_payload lower payload = Raise AttributeError.
Proof.
  intros H. unfold App._validate_research_payload.
  destruct payload; try reflexivity. now destruct (H d).
Qed.

Lemma non_object_payload_raises_witness :
  App._validate_research_payload Cases.ascii_lower
    (VList [VStr (lit "topic")])
  = Raise AttributeError.
Proof.
  apply (@non_object_payload_raises Cases.ascii_lower). discriminate.
Defined.

Section ReadFields.

Variable lower : pystr -> pystr.

(** Reading the fields of an object whose four required fields are
    strings: everything hinges on the institution. *)
Lemma read_fields_strings (d : dict) (name email topic query : pystr) :
  Dict.get (lit "student_name") d = Some (VStr name) ->
  Dict.get (lit "student_email") d = Some (VStr email) ->
  Dict.get (lit "topic") d = Some (VStr topic) ->
  Dict.get (lit "query") d = Some (VStr query) ->
  App.read_fields lower (VDict d) =
  inst <~ App.stripped (VDict d) (lit "institution") ;;
  Ok {| App.student_name := Str.strip name;
        App.student_email := lower (Str.strip email);
        App.institution := firstn 200 inst;
        App.topic := Str.strip topic;
        App.query := Str.strip query |}.
Proof.
  intros Gn Ge Gt Gq. unfold App.read_fields.
  assert (forall k raw, Dict.get k d = Some (VStr raw) ->
            App.stripped (VDict d) k = Ok (Str.strip raw)) as Hs.
  { intros k raw H. unfold App.stripped, App.get, App.strip, and_then.
    now rewrite H. }
  rewrite (Hs _ _ Gn), (Hs _ _ Ge), (Hs _ _ Gt), (Hs _ _ Gq).
  cbn [and_then].
  destruct (App.stripped (VDict d) (lit "institution")); reflexivity.
Qed.

End ReadFields.

(** X16.  What [run_research] reads from a payload that passed the
    validator, and hands to [generate_report], meets the needs of the
    core: name, topic and query are not empty, topic and query are
    trimmed and have at most 300 and 5000 characters, the e-mail matches
    [EMAIL_REGEX], and the institution has at most 200 characters. *)
Theorem validated_fields_meet_contract
  (lower : pystr -> pystr) (payload : value) (msg : pystr) (f : App.fields) :
  App._validate_research_payload lower payload = Ok (true, msg) ->
  App.read_fields lower payload = Ok f ->
  App.student_name f <> []
  /\ Re.matches App.EMAIL_REGEX (App.student_email f) = true
  /\ List.length (App.institution f) <= 200
  /\ App.topic f <> []
  /\ Str.strip (App.topic f) = App.topic f
  /\ List.length (App.topic f) <= 300
  /\ App.query f <> []
  /\ Str.strip (App.query f) = App.query f
  /\ List.length (App.query f) <= 5000.
Proof.
  intros Hv Hr. apply validate_true in Hv
    as [_ [d [name [email [topic [query
          [-> [Gn [Sn [Ge [Se [Hm [Gt [St [Ht [Gq [Sq Hq]]]]]]]]]]]]]]]]].
  rewrite (read_fields_strings lower d Gn Ge Gt Gq) in Hr.
  destruct (App.stripped (VDict d) (lit "institution")) as [inst|];
    [|discriminate].
  cbn [and_then] in Hr. injection Hr as <-. cbn.
  pose proof (strip_length topic). pose proof (strip_length query).
  pose proof (firstn_le_length 200 inst).
  repeat split; try assumption; try apply strip_idem; lia.
Qed.

Lemma validated_fields_meet_contract_witness :
  lit "Ada Lovelace" <> []
  /\ Re.matches App.EMAIL_REGEX (lit "ada@example.org") = true
  /\ List.length (lit "Analytical Engines") <= 200
  /\ lit "Edge AI" <> []
  /\ Str.strip (lit "Edge AI") = lit "Edge AI"
  /\ List.length (lit "Edge AI") <= 300
  /\ lit "How to optimize edge inference?" <> []
  /\ Str.strip (lit "How to optimize edge inference?")
     = lit "How to optimize edge inference?"
  /\ List.length (lit "How to optimize edge inference?") <= 5000.
Proof.
  apply (@validated_fields_meet_contract Cases.ascii_lower
           Cases.good_payload []
           {| App.student_name := lit "Ada Lovelace";
              App.student_email := lit "ada@example.org";
              App.institution := lit "Analytical Engines";
              App.topic := lit "Edge AI";
              App.query := lit "How to optimize edge inference?" |});
    vm_compute; reflexivity.
Defined.

(** X17.  The validator does not look at [institution]: a payload that it
    accepts still makes [run_research] raise [AttributeError] when the
    institution is present and is not a string. *)
Theorem institution_is_not_validated
  (lower : pystr -> pystr) (d : dict) (msg : pystr) (v : value) :
  App._validate_research_payload lower (VDict d) = Ok (true, msg) ->
  Dict.get (lit "institution") d = Some v -> (forall s, v <> VStr s) ->
  App.read_fields lower (VDict d) = Raise AttributeError.
Proof.
  intros Hv Hi Hns. apply validate_true in Hv
    as [_ [d' [name [email [topic [query
          [E [Gn [_ [Ge [_ [_ [Gt [_ [_ [Gq _]]]]]]]]]]]]]]]].
  injection E as <-.
  rewrite (read_fields_strings lower d Gn Ge Gt Gq).
  now rewrite (stripped_non_string d (lit "institution") Hi Hns).
Qed.

Lemma institution_is_not_validated_witness :
  App.read_fields Cases.ascii_lower Cases.numeric_institution
  = Raise AttributeError.
Proof.
  apply (@institution_is_not_validated Cases.ascii_lower _ [] (VInt 7)).
  - vm_compute. reflexivity.
  - reflexivity.
  - discriminate.
Defined.

(* ===================================================================== *)
(** ** Reading back what [json.dumps] wrote *)
(* ===================================================================== *)


Lemma hex_digit_value (d : N) : (d < 16)%N -> Json.hex_value (Json.hex_digit d) = Some d.
Proof.
  intros H. unfold Json.hex_digit, Json.hex_value, Json.is_digit.
  destruct (d <? 10)%N eqn:E.
  - apply N.ltb_lt in E.
    replace ((48 <=? 48 + d) && (48 + d <=? 57))%N with true
      by (symmetry; apply andb_true_iff; split; apply N.leb_le; lia).
    f_equal. lia.
  - apply N.ltb_ge in E.
    replace ((48 <=? 87 + d) && (87 + d <=? 57))%N with false
      by (symmetry; apply andb_false_iff; right; apply N.leb_gt; lia).
    replace ((97 <=? 87 + d) && (87 + d <=? 102))%N with true
      by (symmetry; apply andb_true_iff; split; apply N.leb_le; lia).
    f_equal. lia.
Qed.

Lemma hex_digits_sum (c : N) :
  (c < 65536)%N ->
  ((((c / 4096 mod 16) * 16 + c / 256 mod 16) * 16 + c / 16 mod 16) * 16
   + c mod 16 = c)%N.
Proof.
  intros H.
  replace 4096%N with (16 * 16 * 16)%N by reflexivity.
  replace 256%N with (16 * 16)%N by reflexivity.
  rewrite <- !N.Div0.div_div.
  pose proof (N.div_mod c 16) as H0.
  pose proof (N.div_mod (c / 16) 16) as H1.
  pose proof (N.div_mod (c / 16 / 16) 16) as H2.
  pose proof (N.div_mod (c / 16 / 16 / 16) 16) as H3.
  pose proof (N.mod_lt c 16). pose proof (N.mod_lt (c / 16) 16).
  pose proof (N.mod_lt (c / 16 / 16) 16).
  pose proof (N.mod_lt (c / 16 / 16 / 16) 16).
  generalize dependent (c mod 16)%N. generalize dependent (c / 16 mod 16)%N.
  generalize dependent (c / 16 / 16 mod 16)%N.
  generalize dependent (c / 16 / 16 / 16 mod 16)%N.
  generalize dependent (c / 16 / 16 / 16 / 16)%N.
  generalize dependent (c / 16 / 16 / 16)%N.
  generalize dependent (c / 16 / 16)%N.
  generalize dependent (c / 16)%N.
  intros. lia.
Qed.

Lemma read_hex4_hex4 (c : N) (rest : pystr) :
  (c < 65536)%N -> Json.read_hex4 (Json.hex4 c ++ rest) = Some (c, rest).
Proof.
  intros H. unfold Json.hex4. cbn [app Json.read_hex4].
  rewrite !hex_digit_value by (apply N.mod_lt; discriminate).
  now rewrite hex_digits_sum.
Qed.

Lemma scan_escape_char (c : N) (f : nat) (rest acc : pystr) :
  Store.scalar c = true ->
  Json.scanstring (S f) (Json.escape_char c ++ rest) acc
  = Json.scanstring f rest (c :: acc).
Proof.
  intros Hc. unfold Json.escape_char.
  destruct (N.eqb_spec c 34) as [->|N34]; [reflexivity|].
  destruct (N.eqb_spec c 92) as [->|N92]; [reflexivity|].
  destruct (N.eqb_spec c 10) as [->|N10]; [reflexivity|].
  destruct (N.eqb_spec c 13) as [->|N13]; [reflexivity|].
  destruct (N.eqb_spec c 9) as [->|N9]; [reflexivity|].
  destruct (N.eqb_spec c 8) as [->|N8]; [reflexivity|].
  destruct (N.eqb_spec c 12) as [->|N12]; [reflexivity|].
  apply N.eqb_neq in N34, N92.
  destruct ((32 <=? c) && (c <=? 126))%N eqn:Hp.
  - apply andb_true_iff in Hp as [Hlo Hhi]. apply N.leb_le in Hlo.
    cbn [app Json.scanstring]. rewrite N34, N92.
    replace (c <=? 31)%N with false by (symmetry; apply N.leb_gt; lia).
    reflexivity.
  - unfold Store.scalar in Hc.
    destruct (c <? 65536)%N eqn:Hbmp.
    + apply N.ltb_lt in Hbmp.
      change (lit "\u") with [92; 117]%N. cbn [app Json.scanstring].
      cbn [N.eqb Pos.eqb]. rewrite (read_hex4_hex4 _ Hbmp).
      replace (Json.high_surrogate c) with false; [reflexivity|].
      symmetry. unfold Json.high_surrogate.
      apply orb_true_iff in Hc as [Hc | Hc].
      * apply N.ltb_lt in Hc. apply andb_false_iff. left.
        apply N.leb_gt. lia.
      * apply andb_true_iff in Hc as [Hc _]. apply N.ltb_lt in Hc.
        apply andb_false_iff. right. apply N.leb_gt. lia.
    + apply N.ltb_ge in Hbmp.
      apply orb_true_iff in Hc as [Hc | Hc];
        [apply N.ltb_lt in Hc; lia|].
      apply andb_true_iff in Hc as [_ Hc]. apply N.ltb_lt in Hc.
      remember (c - 65536)%N as n eqn:En.
      assert (n < 1048576)%N as Hn by lia.
      assert (n / 1024 < 1024)%N as Hq
        by (apply N.Div0.div_lt_upper_bound; lia).
      assert (n mod 1024 < 1024)%N as Hr by (apply N.mod_lt; discriminate).
      rewrite (N.mod_small _ _ Hq).
      pose proof (N.div_mod n 1024) as Hdm.
      remember (n / 1024)%N as q eqn:Eq.
      remember (n mod 1024)%N as r eqn:Er.
      change (lit "\u") with [92; 117]%N. rewrite <- !app_assoc.
      cbn [app Json.scanstring]. cbn [N.eqb Pos.eqb].
      rewrite read_hex4_hex4 by lia.
      replace (Json.high_surrogate (55296 + q)) with true
        by (symmetry; unfold Json.high_surrogate; apply andb_true_iff;
            split; apply N.leb_le; lia).
      cbn [app]. rewrite read_hex4_hex4 by lia.
      replace (Json.low_surrogate (56320 + r)) with true
        by (symmetry; unfold Json.low_surrogate; apply andb_true_iff;
            split; apply N.leb_le; lia).
      f_equal. f_equal. unfold Json.join_surrogates. lia.
Qed.

(** Reading back the escaped text of a string, up to the closing quote. *)
Lemma scan_escaped (s : pystr) :
  forallb Store.scalar s = true ->
  forall (fuel : nat) (rest acc : pystr),
    List.length s < fuel ->
    Json.scanstring fuel (flat_map Json.escape_char s ++ 34%N :: rest) acc
    = Ok (rev acc ++ s, rest).
Proof.
  induction s as [|c s IH]; intros Hs fuel rest acc Hf.
  - destruct fuel as [|f]; [simpl in Hf; lia|].
    simpl. now rewrite app_nil_r.
  - simpl in Hs. apply andb_true_iff in Hs as [Hc Hs].
    destruct fuel as [|f]; [simpl in Hf; lia|].
    cbn [flat_map]. rewrite <- app_assoc, scan_escape_char by exact Hc.
    rewrite IH by (try assumption; simpl in Hf; lia).
    simpl. now rewrite <- app_assoc.
Qed.

Lemma escape_char_nonempty (c : N) : Json.escape_char c <> [].
Proof.
  unfold Json.escape_char.
  repeat match goal with
         | |- (if ?b then _ else _) <> [] => destruct b; try discriminate
         end.
Qed.

Lemma escaped_length (s : pystr) :
  List.length s <= List.length (flat_map Json.escape_char s).
Proof.
  induction s as [|c s IH]; simpl; [lia|].
  rewrite length_app. pose proof (escape_char_nonempty c) as H.
  destruct (Json.escape_char c); [congruence | simpl; lia].
Qed.

(** A quoted string is read back, whatever follows it. *)
Lemma scan_quote (s rest : pystr) (d : nat) :
  forallb Store.scalar s = true ->
  Json.scan_once (S d) (Json.quote s ++ rest) = Ok (VStr s, rest).
Proof.
  intros Hs. unfold Json.quote. rewrite <- !app_assoc.
  cbn [app Json.scan_once N.eqb Pos.eqb].
  rewrite scan_escaped; [reflexivity | exact Hs |].
  rewrite length_app. pose proof (escaped_length s). lia.
Qed.

(** The text of a value starts with the character that tells its kind. *)
Lemma dumps_head (v : value) :
  Store.storable v = true -> exists c r, Json.dumps v = c :: r /\ opener c.
Proof.
  unfold opener. destruct v as [|[|]| | |s|l|d]; simpl; try discriminate; intros _.
  - exists 110%N, (lit "ull"). auto.
  - exists 116%N, (lit "rue"). tauto.
  - exists 102%N, (lit "alse"). tauto.
  - eexists _, _. split; [reflexivity | tauto].
  - eexists _, _. split; [reflexivity | tauto].
  - eexists _, _. split; [reflexivity | tauto].
Qed.

Lemma skip_ws_opener (c : N) (r : pystr) :
  opener c -> Json.skip_ws (c :: r) = c :: r.
Proof.
  intros [-> | [-> | [-> | [-> | [-> | ->]]]]]; reflexivity.
Qed.

Lemma skip_ws_dumps (v : value) (rest : pystr) :
  Store.storable v = true ->
  Json.skip_ws (Json.dumps v ++ rest) = Json.dumps v ++ rest.
Proof.
  intros H. destruct (dumps_head v H) as [c [r [-> Hc]]].
  now apply skip_ws_opener.
Qed.

Lemma dumps_nonempty (v : value) :
  Store.storable v = true -> 1 <= List.length (Json.dumps v).
Proof.
  intros H. destruct (dumps_head v H) as [c [r [-> _]]]. simpl. lia.
Qed.

(** An array that starts with a value goes to the loop over its items. *)
Lemma scan_array_start (c : N) (r : pystr) (d : nat) :
  opener c ->
  Json.scan_once (S d) (91%N :: c :: r)
  = Json.parse_items (Json.scan_once d) (S (List.length (c :: r))) (c :: r) [].
Proof.
  intros [-> | [-> | [-> | [-> | [-> | ->]]]]]; reflexivity.
Qed.

(** So does an object, whose first member starts with a quote. *)
Lemma scan_object_start (r : pystr) (d : nat) :
  Json.scan_once (S d) (123%N :: 34%N :: r)
  = Json.parse_pairs (Json.scan_once d) (S (List.length (34%N :: r)))
      (34%N :: r) [].
Proof. reflexivity. Qed.

Lemma join_cons (sep a b : pystr) (r : list pystr) :
  Str.join sep (a :: b :: r) = a ++ sep ++ Str.join sep (b :: r).
Proof. reflexivity. Qed.

Lemma join_length (sep : pystr) (ps : list pystr) :
  Forall (fun p => 1 <= List.length p) ps ->
  List.length ps <= List.length (Str.join sep ps).
Proof.
  induction 1 as [|p ps Hp _ IH]; [simpl; lia|].
  destruct ps as [|q ps]; [simpl; lia|].
  rewrite join_cons, !length_app. simpl in *. lia.
Qed.

Section Loops.

Variable depth : nat.

(** The loop over the items of an array reads back the items that
    [dumps] wrote, separated by [", "] and closed by a bracket. *)
Lemma parse_items_dumps (l : list value) :
  forall (x : value) (acc : list value) (fuel : nat) (rest : pystr),
    Forall (fun y => Store.storable y = true
                     /\ forall r, Json.scan_once depth (Json.dumps y ++ r)
                                  = Ok (y, r)) (x :: l) ->
    List.length l < fuel ->
    Json.parse_items (Json.scan_once depth) fuel
      (Str.join (lit ", ") (map Json.dumps (x :: l)) ++ 93%N :: rest) acc
    = Ok (VList (rev acc ++ x :: l), rest).
Proof.
  induction l as [|y l IH]; intros x acc fuel rest Hall Hfuel;
    destruct fuel as [|f]; try (simpl in Hfuel; lia);
    inversion Hall as [|? ? [Hx Hread] Hrest]; subst.
  - cbn [map Str.join Json.parse_items]. rewrite Hread.
    change (Json.skip_ws (93%N :: rest)) with (93%N :: rest).
    cbv iota. reflexivity.
  - cbn [map]. rewrite join_cons, <- !app_assoc.
    cbn [Json.parse_items]. rewrite Hread.
    change (lit ", ") with [44%N; 32%N]. cbn [app].
    change (Json.skip_ws (44%N :: 32%N :: ?t)) with (44%N :: 32%N :: t).
    cbv iota.
    change (Json.skip_ws (32%N :: ?t)) with (Json.skip_ws t).
    inversion Hrest as [|? ? [Hy _] _]; subst.
    assert (Json.skip_ws
              (Str.join [44%N; 32%N] (Json.dumps y :: map Json.dumps l)
               ++ 93%N :: rest)
            = Str.join [44%N; 32%N] (Json.dumps y :: map Json.dumps l)
              ++ 93%N :: rest) as Hskip.
    { destruct (map Json.dumps l) as [|q qs].
      - apply skip_ws_dumps. exact Hy.
      - rewrite join_cons, <- !app_assoc. apply skip_ws_dumps. exact Hy. }
    rewrite Hskip.
    change [44%N; 32%N] with (lit ", ").
    change (Json.dumps y :: map Json.dumps l) with (map Json.dumps (y :: l)).
    rewrite IH; [| exact Hrest | simpl in Hfuel; lia].
    simpl. now rewrite <- app_assoc.
Qed.

End Loops.

Lemma distinct_fresh (a : list pystr) (k : pystr) (b : list pystr) :
  Store.distinct (a ++ k :: b) = true -> existsb (Str.eqb k) a = false.
Proof.
  induction a as [|x a IH]; simpl; [reflexivity|].
  intros H. apply andb_true_iff in H as [Hx Ha].
  rewrite (IH Ha), orb_false_r.
  apply negb_true_iff in Hx. rewrite existsb_app in Hx.
  apply orb_false_iff in Hx as [_ Hx]. simpl in Hx.
  apply orb_false_iff in Hx as [Hx _].
  destruct (Str.eqb k x) eqn:E; [|reflexivity].
  apply eqb_eq in E. subst. now rewrite eqb_refl in Hx.
Qed.

(** Assigning a key that is not there yet appends the item. *)
Lemma set_fresh (k : pystr) (v : value) (acc : dict) :
  existsb (Str.eqb k) (map fst acc) = false ->
  Dict.set k v acc = acc ++ [(k, v)].
Proof.
  induction acc as [|[k' v'] acc IH]; simpl; [reflexivity|].
  intros H. apply orb_false_iff in H as [Hk H].
  rewrite Hk. now rewrite IH.
Qed.

Lemma skip_ws_members (kv : pystr * value) (ms : list pystr) (rest : pystr) :
  Json.skip_ws (Str.join (lit ", ") (member kv :: ms) ++ rest)
  = Str.join (lit ", ") (member kv :: ms) ++ rest.
Proof.
  destruct ms as [|q qs]; [|rewrite join_cons];
    unfold member, Json.quote; rewrite <- !app_assoc; reflexivity.
Qed.

Section PairLoop.

Variable depth : nat.

(** The loop over the members of an object reads back the members that
    [dumps] wrote, when no key is repeated. *)
Lemma parse_pairs_dumps (m : dict) :
  forall (kv : pystr * value) (acc : dict) (fuel : nat) (rest : pystr),
    Forall (fun p => forallb Store.scalar (fst p) = true
                     /\ Store.storable (snd p) = true
                     /\ forall r, Json.scan_once depth
                                    (Json.dumps (snd p) ++ r)
                                  = Ok (snd p, r)) (kv :: m) ->
    Store.distinct (map fst (acc ++ kv :: m)) = true ->
    List.length m < fuel ->
    Json.parse_pairs (Json.scan_once depth) fuel
      (Str.join (lit ", ") (map member (kv :: m)) ++ 125%N :: rest) acc
    = Ok (VDict (acc ++ kv :: m), rest).
Proof.
  induction m as [|kv' m IH]; intros [k v] acc fuel rest Hall Hdis Hfuel;
    destruct fuel as [|f]; try (simpl in Hfuel; lia);
    inversion Hall as [|? ? [Hk [Hv Hread]] Hrest]; subst;
    cbn [fst snd] in Hk, Hv, Hread;
    assert (Dict.set k v acc = acc ++ [(k, v)]) as Hset
      by (apply set_fresh; rewrite map_app in Hdis;
          exact (distinct_fresh _ _ _ Hdis)).
  - cbn [map Str.join]. unfold member at 1. cbn [fst snd].
    unfold Json.quote. rewrite <- !app_assoc. cbn [app Json.parse_pairs].
    rewrite scan_escaped;
      [| exact Hk | rewrite length_app; pose proof (escaped_length k); lia].
    cbn [rev app].
    change (lit ": ") with [58%N; 32%N]. cbn [app].
    change (Json.skip_ws (58%N :: 32%N :: ?t)) with (58%N :: 32%N :: t).
    cbv iota.
    change (Json.skip_ws (32%N :: ?t)) with (Json.skip_ws t).
    rewrite skip_ws_dumps by exact Hv. rewrite Hread.
    change (Json.skip_ws (125%N :: rest)) with (125%N :: rest).
    cbv iota. now rewrite Hset.
  - cbn [map]. rewrite join_cons. unfold member at 1. cbn [fst snd].
    unfold Json.quote. rewrite <- !app_assoc. cbn [app Json.parse_pairs].
    rewrite scan_escaped;
      [| exact Hk | rewrite length_app; pose proof (escaped_length k); lia].
    cbn [rev app].
    change (lit ": ") with [58%N; 32%N]. cbn [app].
    change (Json.skip_ws (58%N :: 32%N :: ?t)) with (58%N :: 32%N :: t).
    cbv iota.
    change (Json.skip_ws (32%N :: ?t)) with (Json.skip_ws t).
    rewrite skip_ws_dumps by exact Hv. rewrite Hread.
    change (lit ", ") with [44%N; 32%N]. cbn [app].
    change (Json.skip_ws (44%N :: 32%N :: ?t)) with (44%N :: 32%N :: t).
    cbv iota.
    change (Json.skip_ws (32%N :: ?t)) with (Json.skip_ws t).
    change [44%N; 32%N] with (lit ", ").
    rewrite skip_ws_members.
    change (member kv' :: map member m) with (map member (kv' :: m)).
    rewrite Hset.
    rewrite IH; [| exact Hrest | | simpl in Hfuel; lia].
    + now rewrite <- app_assoc.
    + now rewrite <- app_assoc.
Qed.

End PairLoop.

Lemma list_max_member (n : nat) (ns : list nat) :
  In n ns -> n <= list_max ns.
Proof.
  induction ns as [|m ns IH]; [contradiction|].
  intros [-> | H]; simpl; [lia|]. specialize (IH H). lia.
Qed.

Lemma height_list (l : list value) :
  Store.height (VList l) = S (list_max (map Store.height l)).
Proof. reflexivity. Qed.

Lemma height_dict (d : dict) :
  Store.height (VDict d)
  = S (list_max (map (fun kv => Store.height (snd kv)) d)).
Proof. reflexivity. Qed.

Lemma dumps_dict (d : dict) :
  Json.dumps (VDict d)
  = lit "{" ++ Str.join (lit ", ") (map member d) ++ lit "}".
Proof. reflexivity. Qed.

Lemma dumps_list (l : list value) :
  Json.dumps (VList l)
  = lit "[" ++ Str.join (lit ", ") (map Json.dumps l) ++ lit "]".
Proof. reflexivity. Qed.

(** [scan_once] reads back what [dumps] wrote, within the depth budget and
    whatever follows. *)
Lemma scan_dumps (v : value) :
  Store.storable v = true ->
  forall (depth : nat) (rest : pystr),
    Store.height v <= depth ->
    Json.scan_once depth (Json.dumps v ++ rest) = Ok (v, rest).
Proof.
  induction v as [|b|z|r|s|l IH|d IH] using Store.value_induction;
    intros Hst depth rest Hd;
    (destruct depth as [|dp]; [simpl in Hd; lia|]).
  - reflexivity.
  - destruct b; reflexivity.
  - discriminate.
  - discriminate.
  - now apply scan_quote.
  - destruct l as [|x l]; [reflexivity|].
    cbn [Store.storable] in Hst.
    assert (Forall (fun y => Store.storable y = true
                     /\ forall r, Json.scan_once dp (Json.dumps y ++ r)
                                  = Ok (y, r)) (x :: l)) as Hall.
    { rewrite forallb_forall in Hst. rewrite Forall_forall in *.
      intros y Hy. split; [now apply Hst|].
      intros r. apply IH; [exact Hy | now apply Hst |].
      rewrite height_list in Hd.
      pose proof (list_max_member (Store.height y)
                    (map Store.height (x :: l))
                    (in_map Store.height _ _ Hy)). lia. }
    rewrite dumps_list. change (lit "[") with [91%N].
    change (lit "]") with [93%N]. rewrite <- !app_assoc. cbn [app].
    assert (Store.storable x = true) as Hx
      by (inversion Hall as [|? ? [H _] _]; exact H).
    destruct (dumps_head x Hx) as [c [t [Ec Hc]]].
    assert (exists t', Str.join (lit ", ") (map Json.dumps (x :: l))
                       ++ 93%N :: rest = c :: t') as [t' Et].
    { cbn [map]. destruct (map Json.dumps l) as [|q qs].
      - cbn [Str.join]. rewrite Ec. now eexists.
      - rewrite join_cons, Ec. now eexists. }
    rewrite Et, (scan_array_start _ _ Hc), <- Et.
    rewrite parse_items_dumps; [reflexivity | exact Hall |].
    rewrite length_app.
    pose proof (@join_length (lit ", ") (map Json.dumps (x :: l))) as Hlen.
    rewrite length_map in Hlen. simpl List.length in *.
    assert (Forall (fun p => 1 <= List.length p)
              (map Json.dumps (x :: l))) as Hne.
    { apply Forall_forall. intros p Hp. apply in_map_iff in Hp as [y [<- Hy]].
      apply dumps_nonempty. rewrite Forall_forall in Hall.
      now destruct (Hall y Hy). }
    specialize (Hlen Hne). lia.
  - destruct d as [|[k v] d]; [reflexivity|].
    cbn [Store.storable] in Hst. apply andb_true_iff in Hst as [Hdis Hst].
    assert (Forall (fun p => forallb Store.scalar (fst p) = true
                     /\ Store.storable (snd p) = true
                     /\ forall r, Json.scan_once dp
                                    (Json.dumps (snd p) ++ r)
                                  = Ok (snd p, r)) ((k, v) :: d)) as Hall.
    { rewrite forallb_forall in Hst. rewrite Forall_forall in *.
      intros p Hp. specialize (Hst p Hp).
      apply andb_true_iff in Hst as [Hk Hv].
      split; [exact Hk|]. split; [exact Hv|].
      intros r. apply IH; [exact Hp | exact Hv |].
      rewrite height_dict in Hd.
      pose proof (list_max_member (Store.height (snd p))
                    (map (fun kv => Store.height (snd kv)) ((k, v) :: d))
                    (in_map (fun kv => Store.height (snd kv)) _ _ Hp)).
      eapply Nat.le_trans; [exact H|]. apply le_S_n. exact Hd. }
    rewrite dumps_dict. change (lit "{") with [123%N].
    change (lit "}") with [125%N]. rewrite <- !app_assoc. cbn [app].
    assert (exists t', Str.join (lit ", ") (map member ((k, v) :: d))
                       ++ 125%N :: rest = 34%N :: t') as [t' Et].
    { cbn [map]. destruct (map member d) as [|q qs].
      - cbn [Str.join]. unfold member, Json.quote.
        rewrite <- !app_assoc. now eexists.
      - rewrite join_cons. unfold member, Json.quote.
        rewrite <- !app_assoc. now eexists. }
    rewrite Et, scan_object_start, <- Et.
    rewrite parse_pairs_dumps; [reflexivity | exact Hall | exact Hdis |].
    rewrite length_app.
    pose proof (@join_length (lit ", ") (map member ((k, v) :: d))) as Hlen.
    rewrite length_map in Hlen. simpl List.length in *.
    assert (Forall (fun p => 1 <= List.length p)
              (map member ((k, v) :: d))) as Hne.
    { apply Forall_forall. intros p Hp. apply in_map_iff in Hp as [y [<- Hy]].
      unfold member, Json.quote. rewrite !length_app. simpl. lia. }
    specialize (Hlen Hne). lia.
Qed.

Lemma join_member_length (sep p : pystr) (ps : list pystr) :
  In p ps -> List.length p <= List.length (Str.join sep ps).
Proof.
  induction ps as [|a ps IH]; [contradiction|].
  intros Hin. destruct ps as [|b ps].
  - destruct Hin as [-> | []]. simpl. lia.
  - rewrite join_cons, !length_app.
    destruct Hin as [-> | Hin]; [lia|]. specialize (IH Hin). lia.
Qed.

(** The text of a value is at least as long as the value is deep. *)
Lemma height_le_dumps (v : value) :
  Store.storable v = true ->
  Store.height v <= List.length (Json.dumps v).
Proof.
  induction v as [|b|z|r|s|l IH|d IH] using Store.value_induction;
    intros Hst; try discriminate;
    try (exact (dumps_nonempty _ Hst)).
  - rewrite height_list, dumps_list, !length_app.
    change (List.length (lit "[")) with 1.
    apply le_n_S. apply list_max_le. apply Forall_forall.
    intros n Hn. apply in_map_iff in Hn as [x [<- Hx]].
    cbn [Store.storable] in Hst. rewrite forallb_forall in Hst.
    rewrite Forall_forall in IH.
    pose proof (IH x Hx (Hst x Hx)) as H1.
    pose proof (join_member_length (lit ", ") (Json.dumps x)
                  (map Json.dumps l) (in_map Json.dumps _ _ Hx)) as H2.
    lia.
  - rewrite height_dict, dumps_dict, !length_app.
    change (List.length (lit "{")) with 1.
    apply le_n_S. apply list_max_le. apply Forall_forall.
    intros n Hn. apply in_map_iff in Hn as [kv [<- Hkv]].
    cbn [Store.storable] in Hst. apply andb_true_iff in Hst as [_ Hst].
    rewrite forallb_forall in Hst. specialize (Hst kv Hkv).
    apply andb_true_iff in Hst as [_ Hv].
    rewrite Forall_forall in IH.
    pose proof (IH kv Hkv Hv) as H1.
    pose proof (join_member_length (lit ", ") (member kv)
                  (map member d) (in_map member _ _ Hkv)) as H2.
    assert (List.length (Json.dumps (snd kv)) <= List.length (member kv))
      as H3 by (unfold member; rewrite !length_app; lia).
    lia.
Qed.

(** Reading back what was written gives the value itself. *)
Lemma loads_dumps (v : value) :
  Store.storable v = true -> Json.loads (Json.dumps v) = Ok v.
Proof.
  intros Hst. unfold Json.loads.
  rewrite <- (app_nil_r (Json.dumps v)) at 2.
  rewrite (skip_ws_dumps v [] Hst), scan_dumps;
    [reflexivity | exact Hst |].
  pose proof (height_le_dumps v Hst). lia.
Qed.

Section Preserved.

Variable p : N -> bool.

Lemma dropwhile_all_kept (q : N -> bool) (s : pystr) :
  forallb p s = true -> forallb p (Str.dropwhile q s) = true.
Proof.
  induction s as [|c s IH]; simpl; [reflexivity|].
  intros H. destruct (q c); [|exact H].
  apply andb_true_iff in H as [_ H]. now apply IH.
Qed.

Lemma rev_all_kept (s : pystr) :
  forallb p s = true -> forallb p (rev s) = true.
Proof.
  rewrite !forallb_forall. intros H x Hx. apply H. now apply in_rev.
Qed.

Lemma strip_all_kept (s : pystr) :
  forallb p s = true -> forallb p (Str.strip s) = true.
Proof.
  intros H. unfold Str.strip, Str.rstrip, Str.lstrip.
  now apply rev_all_kept, dropwhile_all_kept, rev_all_kept,
    dropwhile_all_kept.
Qed.

Lemma split_all_kept (sep : N) (s : pystr) :
  forallb p s = true ->
  Forall (fun l => forallb p l = true) (Str.split sep s).
Proof.
  induction s as [|c s IH]; simpl; intros H.
  - repeat constructor.
  - apply andb_true_iff in H as [Hc H]. specialize (IH H).
    destruct (c =? sep)%N; [now constructor|].
    destruct (Str.split sep s) as [|l ls]; [repeat constructor; simpl; now rewrite Hc|].
    inversion IH; subst. constructor; [simpl; now rewrite Hc | assumption].
Qed.

Lemma join_all_kept (sep : pystr) (ls : list pystr) :
  forallb p sep = true ->
  Forall (fun l => forallb p l = true) ls ->
  forallb p (Str.join sep ls) = true.
Proof.
  intros Hsep. induction 1 as [|l ls Hl Hls IH]; [reflexivity|].
  destruct ls as [|b ls]; [exact Hl|].
  rewrite join_cons, !forallb_app, Hl, Hsep. exact IH.
Qed.

Lemma skipn_all_kept (n : nat) (s : pystr) :
  forallb p s = true -> forallb p (skipn n s) = true.
Proof.
  rewrite !forallb_forall. intros H x Hx. apply H.
  rewrite <- (firstn_skipn n s). apply in_or_app. now right.
Qed.

(** [dedent] only removes characters: what holds of every character of
    the text, and of the newline, holds of every character of the
    result. *)
Lemma dedent_all_kept (text : pystr) :
  p nl = true -> forallb p text = true ->
  forallb p (Textwrap.dedent text) = true.
Proof.
  intros Hnl H. unfold Textwrap.dedent.
  assert (Forall (fun l => forallb p l = true)
            (map Textwrap.normalize_line (Str.split nl text))) as Hlines.
  { apply Forall_forall. intros l Hl.
    apply in_map_iff in Hl as [l0 [<- Hl0]].
    pose proof (split_all_kept nl text H) as Hs.
    rewrite Forall_forall in Hs. unfold Textwrap.normalize_line.
    destruct (forallb Textwrap.blank l0); [reflexivity | now apply Hs]. }
  assert (forallb p [nl] = true) as Hsep by (simpl; now rewrite Hnl).
  destruct (Textwrap.find_margin _) as [[|c m]|];
    try (now apply join_all_kept).
  apply join_all_kept; [exact Hsep|].
  apply Forall_forall. intros l Hl.
  apply in_map_iff in Hl as [l0 [<- Hl0]].
  rewrite Forall_forall in Hlines. unfold Textwrap.remove_margin.
  destruct (Str.startswith (c :: m) l0);
    [apply skipn_all_kept|]; now apply Hlines.
Qed.

End Preserved.

Lemma user_prompt_scalar (topic query : pystr) :
  forallb Store.scalar topic = true -> forallb Store.scalar query = true ->
  forallb Store.scalar (PromptEngine.build_user_prompt topic query) = true.
Proof.
  intros Ht Hq. unfold PromptEngine.build_user_prompt.
  apply strip_all_kept, dedent_all_kept; [reflexivity|].
  unfold PromptEngine.user_template, PromptEngine.block.
  apply join_all_kept; [reflexivity|].
  repeat constructor; rewrite ?forallb_app, ?Ht, ?Hq; reflexivity.
Qed.

Lemma storable_str (s : pystr) :
  forallb Store.scalar s = true -> Store.storable (VStr s) = true.
Proof. intros H. exact H. Qed.

Lemma storable_list (l : list value) :
  Forall (fun x => Store.storable x = true) l ->
  Store.storable (VList l) = true.
Proof.
  intros H. cbn [Store.storable]. apply forallb_forall.
  now apply Forall_forall.
Qed.

Lemma storable_dict (d : dict) :
  Store.distinct (map fst d) = true ->
  Forall (fun kv => forallb Store.scalar (fst kv) = true
                    /\ Store.storable (snd kv) = true) d ->
  Store.storable (VDict d) = true.
Proof.
  intros Hd H. cbn [Store.storable]. rewrite Hd. cbn [andb].
  apply forallb_forall. intros kv Hkv. rewrite Forall_forall in H.
  destruct (H kv Hkv) as [Hk Hv]. now rewrite Hk, Hv.
Qed.

(** Splits a goal about an explicit tree of strings into its leaves. *)
Ltac storable_tree :=
  repeat match goal with
         | |- _ /\ _ => split
         | |- Forall _ (_ :: _) => apply Forall_cons
         | |- Forall _ [] => apply Forall_nil
         | |- Store.storable (VDict _) = true =>
             apply storable_dict; [vm_compute; reflexivity|]
         | |- Store.storable (VList _) = true => apply storable_list
         | |- Store.storable (VStr _) = true => apply storable_str
         | |- context [fst (_, _)] => progress cbn [fst snd]
         | |- context [snd (_, _)] => progress cbn [fst snd]
         end.

Lemma system_prompt_scalar :
  forallb Store.scalar PromptEngine.build_system_prompt = true.
Proof. vm_compute. reflexivity. Qed.


Lemma fallback_storable (topic query : pystr) :
  forallb Store.scalar topic = true -> forallb Store.scalar query = true ->
  Store.storable
    (VDict (ResearchService.tagged_fallback topic query)) = true.
Proof.
  intros Ht Hq.
  pose proof (user_prompt_scalar topic query Ht Hq) as Hu.
  pose proof system_prompt_scalar as Hsys.
  unfold ResearchService.tagged_fallback.
  assert (existsb (Str.eqb (lit "prompt_debug"))
            (map fst (ResearchService._fallback_report topic query)) = false)
    as Hfresh by (vm_compute; reflexivity).
  rewrite (set_fresh _ _ _ Hfresh).
  unfold ResearchService.prompt_debug, ResearchService._fallback_report,
    ResearchService._simulate_sources.
  cbn [app]. storable_tree;
    first [ exact Hu | exact Hsys
          | rewrite ?forallb_app, ?Ht, ?Hq; reflexivity ].
Qed.

(** X19.  A fallback report comes back from storage unchanged: for a
    topic and a query without surrogate code points, [json.loads] of the
    [json.dumps] text that [run_research] stores is the report that
    [generate_report] returned, [prompt_debug] included. *)
Theorem stored_fallback_round_trip (topic query : pystr) :
  forallb Store.scalar topic = true -> forallb Store.scalar query = true ->
  Json.loads
    (Json.dumps (VDict (ResearchService.tagged_fallback topic query)))
  = Ok (VDict (ResearchService.tagged_fallback topic query)).
Proof.
  intros Ht Hq. apply loads_dumps. now apply fallback_storable.
Qed.

Lemma stored_fallback_round_trip_witness :
  Json.loads
    (Json.dumps
       (VDict (ResearchService.tagged_fallback (lit "NLP") (lit "Topic"))))
  = Ok (VDict (ResearchService.tagged_fallback (lit "NLP") (lit "Topic"))).
Proof.
  apply (@stored_fallback_round_trip (lit "NLP") (lit "Topic"));
    reflexivity.
Defined.

(** X18.  Storage as JSON text is lossless on trees of objects, lists,
    strings, booleans and [null] in which no object repeats a key and no
    string holds a surrogate code point, nested no deeper than the
    interpreter lets the encoder and the decoder go:
    [json.loads(json.dumps(v))] is [v], in the order of the keys too. *)
Theorem stored_value_round_trip (v : value) :
  Store.storable v = true ->
  (Store.height v <= Limits.depth)%nat ->
  Json.loads (Json.dumps v) = Ok v.
Proof. intros H _. exact (loads_dumps v H). Qed.

Lemma stored_value_round_trip_witness :
  Json.loads
    (Json.dumps
       (VDict [ (lit "abstract", VStr (lit "caf" ++ [233; 10; 128512]%N));
                (lit "references", VList [VNone; VBool true; VDict []]) ]))
  = Ok (VDict [ (lit "abstract", VStr (lit "caf" ++ [233; 10; 128512]%N));
                (lit "references", VList [VNone; VBool true; VDict []]) ]).
Proof.
  apply (@stored_value_round_trip
           (VDict [ (lit "abstract",
                      VStr (lit "caf" ++ [233; 10; 128512]%N));
                    (lit "references",
                      VList [VNone; VBool true; VDict []]) ])).
  - reflexivity.
  - vm_compute. lia.
Defined.

(* ===================================================================== *)
(** ** The request body *)
(* ===================================================================== *)

Lemma hex_digit_ascii (d : N) : (d < 16)%N -> is_ascii (Json.hex_digit d) = true.
Proof.
  intros H. unfold is_ascii, Json.hex_digit.
  destruct (d <? 10)%N; apply N.ltb_lt; lia.
Qed.

Lemma hex4_ascii (c : N) : forallb is_ascii (Json.hex4 c) = true.
Proof.
  unfold Json.hex4. cbn [forallb].
  rewrite !hex_digit_ascii by (apply N.mod_lt; discriminate).
  reflexivity.
Qed.

(** Every character is written with ASCII characters only. *)
Lemma escape_char_ascii (c : N) : forallb is_ascii (Json.escape_char c) = true.
Proof.
  unfold Json.escape_char.
  repeat match goal with
         | |- forallb is_ascii (if ?b then _ else _) = true =>
             destruct b eqn:?; try reflexivity
         end.
  - cbn [forallb]. rewrite andb_true_r.
    match goal with
    | H : (_ && _)%bool = true |- _ => apply andb_true_iff in H as [_ H];
        apply N.leb_le in H
    end.
    apply N.ltb_lt. lia.
  - rewrite forallb_app, hex4_ascii. reflexivity.
  - rewrite !forallb_app, !hex4_ascii. reflexivity.
Qed.

Lemma quote_ascii (s : pystr) : forallb is_ascii (Json.quote s) = true.
Proof.
  unfold Json.quote. rewrite !forallb_app. cbn [forallb].
  replace (forallb is_ascii (flat_map Json.escape_char s)) with true;
    [reflexivity|].
  symmetry. induction s as [|c s IH]; [reflexivity|].
  cbn [flat_map]. now rewrite forallb_app, escape_char_ascii, IH.
Qed.

Lemma dumps_str (s : pystr) : Json.dumps (VStr s) = Json.quote s.
Proof. reflexivity. Qed.

(** X20.  The body of the request is ASCII text for every model name,
    topic and query, whatever code points they hold: [json.dumps] escapes
    the rest, so [encode("utf-8")] cannot fail and changes nothing. *)
Theorem request_body_is_ascii (api_key model topic query : pystr) :
  forallb is_ascii (data (build_request api_key model topic query)) = true.
Proof.
  unfold build_request, data, payload.
  repeat (rewrite ?dumps_dict, ?dumps_list;
          cbn [map Str.join]; unfold member; cbn [fst snd]).
  rewrite !dumps_str.
  change (Json.dumps (VFloat (lit "0.2"))) with (lit "0.2").
  rewrite !forallb_app, !quote_ascii. reflexivity.
Qed.

(* ===================================================================== *)
(** ** The answer of the provider decides the report *)
(* ===================================================================== *)

(** X21.  When the call succeeds and the content of the first choice
    parses to a JSON object, that object alone decides the outcome of
    [generate_report]: the object itself if it has every required key,
    the tagged fallback report if one is missing; nothing of the two is
    ever merged. *)
Theorem answer_decides_report
  (W : World) (topic query : pystr) (tr : trace)
  (c : N) (key body : pystr) (raw choices first message content : value)
  (d : dict) :
  Str.strip (getenv W (lit "OPENAI_API_KEY") (lit "")) = c :: key ->
  urlopen_read W
    (build_request (c :: key)
       (getenv W (lit "OPENAI_MODEL") (lit "gpt-4o-mini")) topic query) 45
  = Ok body ->
  Json.loads body = Ok raw ->
  getitem raw (IStr (lit "choices")) = Ok choices ->
  getitem choices (IInt 0) = Ok first ->
  getitem first (IStr (lit "message")) = Ok message ->
  getitem message (IStr (lit "content")) = Ok content ->
  Json.loads_value content = Ok (VDict d) ->
  fst (generate_report W topic query tr)
  = Ok (if issubset REQUIRED_KEYS (Dict.keys d)
        then d
        else tagged_fallback topic query).
Proof.
  intros Hkey Hbody Hraw Hchoices Hfirst Hmessage Hcontent Hparsed.
  rewrite generate_report_cases, (try_with_key W topic query tr Hkey).
  cbv [try_body bind lift urlopen ret].
  rewrite Hbody, Hraw, Hchoices, Hfirst, Hmessage, Hcontent, Hparsed.
  simpl as_dict. cbv beta iota.
  destruct (issubset REQUIRED_KEYS (Dict.keys d)); reflexivity.
Qed.

Lemma answer_decides_report_witness :
  fst (generate_report
         (Scenario.replying (lit "sk-test")
            (Scenario.completion (Scenario.embedded [])))
         (lit "AI") (lit "q") [])
  = Ok (tagged_fallback (lit "AI") (lit "q")).
Proof.
  refine (@answer_decides_report
            (Scenario.replying (lit "sk-test")
               (Scenario.completion (Scenario.embedded [])))
            (lit "AI") (lit "q") [] 115%N (lit "k-test")
            (Scenario.completion (Scenario.embedded []))
            (Scenario.completion_doc (Scenario.embedded []))
            (VList [Scenario.choice (Scenario.embedded [])])
            (Scenario.choice (Scenario.embedded []))
            (Scenario.message (Scenario.embedded []))
            (Scenario.embedded [])
            []
            _ _ _ _ _ _ _ _); vm_compute; reflexivity.
Defined.
